(** * YNAB2GoogleSheet: a shallow embedding of [main.py]

    The script reads two credential files, fetches the transactions of a
    budget over HTTP, reshapes them into a table of string cells and
    writes that table to one worksheet.  This development models the
    Python values the script handles (the result of [json.load] and of
    [response.json()]), the module-level state it mutates, the external
    services as explicit environments, and then states and proves the
    properties of the four components. *)

From Stdlib Require Import ZArith String Ascii List DecimalString.
From Stdlib Require Import Floats.SpecFloat.
From stdpp Require Import base option list gmap strings.

Set Warnings "-register-all".
Local Open Scope string_scope.
Local Open Scope Z_scope.

(** ** Exceptions and results *)

(** The exceptions the script can run into.  Nothing in [main.py] catches
    an exception, so raising one ends the component that raised it. *)
Inductive exn : Set :=
| FileNotFoundError
| IsADirectoryError
| JSONDecodeError
| KeyError
| TypeError
| OverflowError
| ZeroDivisionError
| RequestException
| GSpreadAuthError
| SpreadsheetNotFound
| WorksheetNotFound.

Inductive result (A : Type) : Type :=
| Ok (a : A)
| Raise (e : exn).
Arguments Ok {A} a.
Arguments Raise {A} e.

Definition rbind {A B} (r : result A) (k : A -> result B) : result B :=
  match r with
  | Ok a => k a
  | Raise e => Raise e
  end.

Definition rmap {A B} (f : A -> B) (r : result A) : result B :=
  rbind r (fun a => Ok (f a)).

Notation "'try' x <- c ; k" := (rbind c (fun x => k))
  (at level 10, x name, c at level 100, k at level 200).

(** ** Python floats

    A Python [float] is an IEEE-754 binary64 number.  It is represented
    by the Standard Library's [spec_float] at precision 53, with the
    arithmetic of [SpecFloat] (round to nearest, ties to even). *)

Definition prec : Z := 53.
Definition emax : Z := 1024.

Definition is_finite (f : spec_float) : bool :=
  match f with
  | S754_zero _ | S754_finite _ _ _ => true
  | S754_infinity _ | S754_nan => false
  end.

(** The binary64 number nearest to the exact quotient [n / d] of two
    positive integers of any size, with sign [s]. *)
Definition round_ratio (s : bool) (n d : positive) : spec_float :=
  SFdiv prec emax (S754_finite s n 0) (S754_finite false d 0).

(** [float(z)] for a Python [int]. *)
Definition float_of_int (z : Z) : result spec_float :=
  match z with
  | Z0 => Ok (S754_zero false)
  | Zpos p =>
      let r := round_ratio false p 1 in
      if is_finite r then Ok r else Raise OverflowError
  | Zneg p =>
      let r := round_ratio true p 1 in
      if is_finite r then Ok r else Raise OverflowError
  end.

(** [a / b] on two Python [int]s: the correctly rounded quotient;
    [ZeroDivisionError] for a zero divisor and [OverflowError] when the
    quotient is too large for a float. *)
Definition int_true_div (a b : Z) : result spec_float :=
  match a, b with
  | _, Z0 => Raise ZeroDivisionError
  | Z0, Zpos _ => Ok (S754_zero false)
  | Z0, Zneg _ => Ok (S754_zero true)
  | Zpos n, Zpos d | Zneg n, Zneg d =>
      let r := round_ratio false n d in
      if is_finite r then Ok r else Raise OverflowError
  | Zpos n, Zneg d | Zneg n, Zpos d =>
      let r := round_ratio true n d in
      if is_finite r then Ok r else Raise OverflowError
  end.

(** [x / y] on two Python [float]s. *)
Definition float_true_div (x y : spec_float) : result spec_float :=
  match y with
  | S754_zero _ => Raise ZeroDivisionError
  | _ => Ok (SFdiv prec emax x y)
  end.

(** Python's [==] on floats. *)
Definition float_eqb (x y : spec_float) : bool := SFeqb x y.

(** *** [repr] of a float

    [str(x)] of a float is [repr(x)]: the shortest string of decimal
    digits that reads back as [x], the nearest to [x] among the strings
    of that length, laid out in fixed notation when the decimal point
    position is in (-4, 16] and in exponent notation otherwise. *)

Definition string_of_Z (z : Z) : string :=
  NilZero.string_of_int (Z.to_int z).

(** The binary64 number that the decimal [D * 10^j] reads as. *)
Definition decimal_to_float (D : positive) (j : Z) : spec_float :=
  if 0 <=? j then round_ratio false (D * Z.to_pos (10 ^ j)) 1
  else round_ratio false D (Z.to_pos (10 ^ (- j))).

Definition same_float (x y : spec_float) : bool :=
  match x, y with
  | S754_finite s1 m1 e1, S754_finite s2 m2 e2 =>
      Bool.eqb s1 s2 && Pos.eqb m1 m2 && Z.eqb e1 e2
  | _, _ => false
  end.

(** The least [k] at or above [k0] with [num / den < 10^k]. *)
Fixpoint decimal_point (fuel : nat) (num den k : Z) : Z :=
  match fuel with
  | O => k
  | S fuel' =>
      if (if 0 <=? k then num <? den * 10 ^ k else num * 10 ^ (- k) <? den)
      then k
      else decimal_point fuel' num den (k + 1)
  end.

(** The two decimals of [n] digits around [num / den], and how the
    quotient sits between them: [(lo, rem, den', j)] stands for
    [lo * 10^j <= num / den < (lo + 1) * 10^j] with remainder [rem]
    over [den']. *)
Definition digits_around (num den k : Z) (n : Z) : Z * Z * Z * Z :=
  let j := k - n in
  let num' := if 0 <=? j then num else num * 10 ^ (- j) in
  let den' := if 0 <=? j then den * 10 ^ j else den in
  (num' / den', num' mod den', den', j).

(** The decimal of [n] digits that reads back as the float [m * 2^e],
    if there is one; the nearer one if both neighbours do. *)
Definition round_trip_digits (m : positive) (e : Z) (num den k n : Z)
  : option (Z * Z) :=
  let '(lo, rem, den', j) := digits_around num den k n in
  let x := S754_finite false m e in
  let ok_lo := same_float (decimal_to_float (Z.to_pos lo) j) x in
  let ok_hi := same_float (decimal_to_float (Z.to_pos (lo + 1)) j) x in
  if rem =? 0 then Some (lo, j)
  else if ok_lo && ok_hi then
    Some (if 2 * rem <? den' then lo
          else if den' <? 2 * rem then lo + 1
          else if Z.even lo then lo else lo + 1, j)
  else if ok_lo then Some (lo, j)
  else if ok_hi then Some (lo + 1, j)
  else None.

(** The nearest decimal of [n] digits, read back or not. *)
Definition nearest_digits (num den k n : Z) : Z * Z :=
  let '(lo, rem, den', j) := digits_around num den k n in
  (if 2 * rem <? den' then lo
   else if den' <? 2 * rem then lo + 1
   else if Z.even lo then lo else lo + 1, j).

Fixpoint shortest_digits (fuel : nat) (m : positive) (e : Z)
    (num den k n : Z) : Z * Z :=
  match fuel with
  | O => nearest_digits num den k n
  | S fuel' =>
      match round_trip_digits m e num den k n with
      | Some d => d
      | None => shortest_digits fuel' m e num den k (n + 1)
      end
  end.

Fixpoint strip_zeros (fuel : nat) (D j : Z) : Z * Z :=
  match fuel with
  | O => (D, j)
  | S fuel' =>
      if (D mod 10 =? 0) && negb (D =? 0)
      then strip_zeros fuel' (D / 10) (j + 1)
      else (D, j)
  end.

Definition zeros (n : Z) : string :=
  String.concat EmptyString (repeat "0" (Z.to_nat n)).

(** Digits and decimal point position of the finite float [m * 2^e]:
    the value is [0.digits * 10^decpt]. *)
Definition float_digits (m : positive) (e : Z) : string * Z :=
  let num := if 0 <=? e then Z.pos m * 2 ^ e else Z.pos m in
  let den := if 0 <=? e then 1 else 2 ^ (- e) in
  let L := Z.pos (digits2_pos m) + e in
  let k := decimal_point 8 num den ((L - 1) * 30103 / 100000 - 1) in
  let '(D, j) := shortest_digits 16 m e num den k 1 in
  let '(D, j) := strip_zeros 20 D j in
  let ds := string_of_Z D in
  (ds, Z.of_nat (String.length ds) + j).

Definition format_exponent (x : Z) : string :=
  let a := string_of_Z (Z.abs x) in
  (if x <? 0 then "-" else "+") ++ (if Z.abs x <? 10 then "0" ++ a else a).

Definition layout_digits (ds : string) (decpt : Z) : string :=
  let n := Z.of_nat (String.length ds) in
  if (decpt <=? -4) || (16 <? decpt) then
    (* exponent notation: d[.ddd]e+XX *)
    substring 0 1 ds
    ++ (if 1 <? n then "." ++ substring 1 (Z.to_nat (n - 1)) ds else EmptyString)
    ++ "e" ++ format_exponent (decpt - 1)
  else if decpt <=? 0 then
    "0." ++ zeros (- decpt) ++ ds
  else if decpt <? n then
    substring 0 (Z.to_nat decpt) ds ++ "."
    ++ substring (Z.to_nat decpt) (Z.to_nat (n - decpt)) ds
  else
    ds ++ zeros (decpt - n) ++ ".0".

Definition float_repr (f : spec_float) : string :=
  match f with
  | S754_nan => "nan"
  | S754_infinity false => "inf"
  | S754_infinity true => "-inf"
  | S754_zero false => "0.0"
  | S754_zero true => "-0.0"
  | S754_finite s m e =>
      let '(ds, decpt) := float_digits m e in
      (if s then "-" else EmptyString) ++ layout_digits ds decpt
  end.

(** ** Python values

    The values [json.load] and [response.json()] produce: [None], booleans,
    integers of any size, floats, strings, lists, and dictionaries with
    string keys.  The script only looks keys up, tests membership and
    stores under a key, so a dictionary is a finite map. *)

Inductive pyval : Type :=
| PyNone
| PyBool (b : bool)
| PyInt (z : Z)
| PyFloat (f : spec_float)
| PyStr (s : string)
| PyList (l : list pyval)
| PyDict (d : gmap string pyval).

(** [bool(v)], the truth value that [not v] negates. *)
Definition py_truth (v : pyval) : bool :=
  match v with
  | PyNone => false
  | PyBool b => b
  | PyInt z => negb (z =? 0)
  | PyFloat (S754_zero _) => false
  | PyFloat _ => true
  | PyStr s => negb (String.eqb s EmptyString)
  | PyList l => negb (Nat.eqb (length l) 0)
  | PyDict d => negb (Nat.eqb (size d) 0)
  end.

(** [key in v] for a string [key]: a key test on a dictionary, an element
    test on a list, a substring test on a string, a [TypeError] on the
    values that are not containers. *)
Definition py_contains (key : string) (v : pyval) : result bool :=
  match v with
  | PyDict d => Ok (bool_decide (is_Some (d !! key)))
  | PyList l =>
      Ok (existsb (fun x => match x with
                            | PyStr s => String.eqb s key
                            | _ => false
                            end) l)
  | PyStr s => Ok (bool_decide (is_Some (String.index 0 key s)))
  | PyNone | PyBool _ | PyInt _ | PyFloat _ => Raise TypeError
  end.

(** [v[key]] for a string [key]. *)
Definition py_getitem (v : pyval) (key : string) : result pyval :=
  match v with
  | PyDict d =>
      match d !! key with
      | Some x => Ok x
      | None => Raise KeyError
      end
  | _ => Raise TypeError
  end.

(** [v[key] = x] for a string [key]; the result is the object [v] after
    the store. *)
Definition py_setitem (v : pyval) (key : string) (x : pyval) : result pyval :=
  match v with
  | PyDict d => Ok (PyDict (<[key := x]> d))
  | _ => Raise TypeError
  end.

Fixpoint chars (s : string) : list pyval :=
  match s with
  | EmptyString => []
  | String c s' => PyStr (String c EmptyString) :: chars s'
  end.

(** The elements a [for] loop over [v] visits.  A loop over a dictionary
    visits its keys; the script's loop body raises on the first key it
    meets, whichever it is, so the order of the keys is left to
    [map_to_list]. *)
Definition py_iter (v : pyval) : result (list pyval) :=
  match v with
  | PyList l => Ok l
  | PyDict d => Ok (PyStr <$> (map_to_list d).*1)
  | PyStr s => Ok (chars s)
  | PyNone | PyBool _ | PyInt _ | PyFloat _ => Raise TypeError
  end.

(** ** Configuration constants of [main.py] *)

Definition YNAB_FETCH_RETRIES : nat := 3.
Definition YNAB_TOKEN_KEY : string := "YNAB_TOKEN".
Definition YNAB_BUDGET_ID_KEY : string := "YNAB_BUDGET".
Definition YNAB_START_YEAR : string := "2021-01-01".
Definition YNAB_BASE_URL : string := "https://api.youneedabudget.com/v1".
Definition YNAB_TXNS_APPROVED_ONLY : bool := true.
Definition GSHEET_SPREADSHEET_NAME : string := "Budget 2021".
Definition GSHEET_TXNS_SHEET_NAME : string := "YNAB-Transactions".
Definition YNAB_COLUMNS : list string :=
  ["date"; "account_name"; "payee_name"; "memo"; "category_name"; "amount"].

(** The value the module binds [GSHEETS_COLUMNS] to when it is loaded.
    The list object itself is mutable and lives in the [world] below. *)
Definition GSHEETS_COLUMNS_init : list string :=
  ["Date"; "Account"; "Payee"; "Memo"; "Category"; "Amount"].

(** ** The process state and the outside world *)

Record request : Type := {
  url : string;
  headers : list (string * string);
  params : list (string * string)
}.

(** An HTTP response: its status and what [response.json()] makes of its
    body ([None] when the body is not JSON). *)
Record response : Type := {
  status_code : Z;
  body_json : option pyval
}.

(** One call of [worksheet.update]. *)
Record update_call : Type := {
  spreadsheet : string;
  worksheet : string;
  sheet_range : string;
  values : list (list string)
}.

(** What the process changes as it runs: the module-level list
    [GSHEETS_COLUMNS], the requests sent, the lines logged, the calls of
    [update] made. *)
Record world : Type := {
  GSHEETS_COLUMNS : list string;
  requests_sent : list request;
  log : list string;
  sheet_updates : list update_call
}.

Definition initial_world : world :=
  {| GSHEETS_COLUMNS := GSHEETS_COLUMNS_init;
     requests_sent := [];
     log := [];
     sheet_updates := [] |}.

(** A path names a directory or a regular file.  A regular file is
    described by what [json.load] makes of its content: the parsed value,
    or nothing when the content is not JSON. *)
Inductive node : Type :=
| Directory
| File (parsed : option pyval).

(** What the process reads from outside: the file system, the budgeting
    API (the outcome of the [n]-th request of the run), the clock read by
    [time.ctime()], and the spreadsheet service (the key files it accepts
    and, per spreadsheet title, the titles of its worksheets). *)
Record environment : Type := {
  fs : gmap string node;
  http : nat -> request -> result response;
  ctime : string;
  key_accepted : string -> bool;
  spreadsheets : gmap string (list string)
}.

(** Computations that read and change the [world] and may raise. *)
Definition M (A : Type) : Type := world -> result A * world.

Definition ret {A} (a : A) : M A := fun w => (Ok a, w).

Definition bind {A B} (c : M A) (k : A -> M B) : M B :=
  fun w =>
    match c w with
    | (Ok a, w') => k a w'
    | (Raise e, w') => (Raise e, w')
    end.

Definition lift {A} (r : result A) : M A := fun w => (r, w).

Notation "'do' x <- c ; k" := (bind c (fun x => k))
  (at level 10, x name, c at level 100, k at level 200).

(** ** Sample data

    Closed values on which the properties proved below are run. *)

(** The transaction of the specification's example. *)
Definition example_transaction : gmap string pyval :=
  <["date" := PyStr "2024-01-01"]>
  (<["account_name" := PyStr "Checking"]>
  (<["payee_name" := PyStr "Store"]>
  (<["memo" := PyStr "m"]>
  (<["category_name" := PyStr "Food"]>
  (<["amount" := PyInt (-12340)]>
  (<["approved" := PyBool true]> ∅)))))).

(** The same transaction marked unapproved, without the approval field,
    and a second approved one. *)
Definition unapproved_transaction : gmap string pyval :=
  <["approved" := PyBool false]> example_transaction.

Definition unmarked_transaction : gmap string pyval :=
  delete "approved" example_transaction.

Definition second_transaction : gmap string pyval :=
  <["payee_name" := PyStr "Cafe"]> (<["amount" := PyInt 1000]> example_transaction).

(** The float [-12.34], that is [-12340 / 1000]. *)
Definition minus_12_34 : spec_float :=
  S754_finite true 6946802425218990 (-49).

(** A [repr] of containers to run the samples with; no sample prints a
    container. *)
Definition sample_repr (v : pyval) : string := "[...]".

Definition sample_credentials : gmap string pyval :=
  <["YNAB_TOKEN" := PyStr "secret-token"]>
  (<["YNAB_BUDGET" := PyStr "budget-1"]> ∅).

Definition sample_files : gmap string node :=
  <["key.json" := File (Some (PyDict ∅))]>
  (<["ynab.json" := File (Some (PyDict sample_credentials))]> ∅).

Definition response_with (status : Z) (txns : list pyval) : response :=
  {| status_code := status;
     body_json :=
       Some (PyDict {["data" := PyDict {["transactions" := PyList txns]}]}) |}.

Definition fetched_transactions : list (gmap string pyval) :=
  [example_transaction; unapproved_transaction; second_transaction].

(** Two attempts answered with an error status, then one with 200. *)
Definition sample_http (n : nat) (rq : request) : result response :=
  match n with
  | 0%nat => Ok (response_with 500 [PyDict unmarked_transaction])
  | 1%nat => Ok (response_with 429 [])
  | 2%nat => Ok (response_with 200 (PyDict <$> fetched_transactions))
  | _ => Raise RequestException
  end.

Definition sample_now : string := "Mon Jan  1 12:00:00 2024".

Definition sample_env : environment :=
  {| fs := sample_files;
     http := sample_http;
     ctime := sample_now;
     key_accepted := String.eqb "key.json";
     spreadsheets := {["Budget 2021" := ["Summary"; "YNAB-Transactions"]]} |}.

(** The rows of the two approved sample transactions, and the
    transactions as the formatter leaves them. *)
Definition example_row : list string :=
  ["2024-01-01"; "Checking"; "Store"; "m"; "Food"; "-12.34"].

Definition second_row : list string :=
  ["2024-01-01"; "Checking"; "Cafe"; "m"; "Food"; "1.0"].

Definition one_float : spec_float := S754_finite false 4503599627370496 (-52).

Definition example_formatted : gmap string pyval :=
  <["amount" := PyFloat minus_12_34]> example_transaction.

Definition second_formatted : gmap string pyval :=
  <["amount" := PyFloat one_float]> second_transaction.

(** Transactions the formatter cannot format: one without a memo, one
    whose amount is a string; and an unapproved one with no other field. *)
Definition no_memo_transaction : gmap string pyval :=
  delete "memo" example_transaction.

Definition text_amount_transaction : gmap string pyval :=
  <["amount" := PyStr "12.50"]> example_transaction.

Definition bare_unapproved_transaction : gmap string pyval :=
  {["approved" := PyBool false]}.

(** Credentials without a budget id. *)
Definition token_only_credentials : gmap string pyval :=
  {["YNAB_TOKEN" := PyStr "secret-token"]}.

Definition token_only_env : environment :=
  {| fs := <["ynab.json" := File (Some (PyDict token_only_credentials))]>
           sample_files;
     http := sample_http;
     ctime := sample_now;
     key_accepted := String.eqb "key.json";
     spreadsheets := {["Budget 2021" := ["Summary"; "YNAB-Transactions"]]} |}.

(** A budgeting API whose second answer is not JSON, the first and the
    third being fine. *)
Definition flaky_http (n : nat) (rq : request) : result response :=
  match n with
  | 1%nat => Ok {| status_code := 502; body_json := None |}
  | _ => Ok (response_with 200 (PyDict <$> fetched_transactions))
  end.

Definition flaky_env : environment :=
  {| fs := sample_files;
     http := flaky_http;
     ctime := sample_now;
     key_accepted := String.eqb "key.json";
     spreadsheets := {["Budget 2021" := ["Summary"; "YNAB-Transactions"]]} |}.

(** ** The program *)

Section Program.

(** [repr] of a list or of a dictionary is Python's own; the script never
    depends on what it prints, so it is left open here. *)
Variable container_repr : pyval -> string.

(** [str(v)], also what the conversion [%s] prints. *)
Definition py_str (v : pyval) : string :=
  match v with
  | PyNone => "None"
  | PyBool true => "True"
  | PyBool false => "False"
  | PyInt z => string_of_Z z
  | PyFloat f => float_repr f
  | PyStr s => s
  | PyList _ | PyDict _ => container_repr v
  end.

(** *** Credential Loader: class [AuthData] *)

Record AuthData : Type := {
  gsheet_file : string;
  ynab_file_dict : pyval
}.

Definition path_exists (files : gmap string node) (p : string) : bool :=
  bool_decide (is_Some (files !! p)).

(** [json.load(open(p))] *)
Definition open_and_load (files : gmap string node) (p : string)
  : result pyval :=
  match files !! p with
  | None => Raise FileNotFoundError
  | Some Directory => Raise IsADirectoryError
  | Some (File None) => Raise JSONDecodeError
  | Some (File (Some v)) => Ok v
  end.

Definition AuthData_init (files : gmap string node)
    (gsheet_path ynab_path : string) : result AuthData :=
  if negb (path_exists files gsheet_path) then Raise FileNotFoundError
  else if negb (path_exists files ynab_path) then Raise FileNotFoundError
  else
    try d <- open_and_load files ynab_path;
    Ok {| gsheet_file := gsheet_path; ynab_file_dict := d |}.

Definition get_gsheet_file (self : AuthData) : string :=
  gsheet_file self.

Definition get_ynab_token (self : AuthData) : result pyval :=
  try present <- py_contains YNAB_TOKEN_KEY (ynab_file_dict self);
  if negb present then Raise KeyError
  else py_getitem (ynab_file_dict self) YNAB_TOKEN_KEY.

Definition get_ynab_budget (self : AuthData) : result pyval :=
  try present <- py_contains YNAB_BUDGET_ID_KEY (ynab_file_dict self);
  if negb present then Raise KeyError
  else py_getitem (ynab_file_dict self) YNAB_BUDGET_ID_KEY.

(** *** Transaction Fetcher: [get_ynab_transactions] *)

Definition response_json (r : response) : result pyval :=
  match body_json r with
  | Some v => Ok v
  | None => Raise JSONDecodeError
  end.

(** [requests.get]: the request is recorded and answered by the
    environment. *)
Definition requests_get (env : environment) (rq : request) : M response :=
  fun w =>
    (http env (length (requests_sent w)) rq,
     {| GSHEETS_COLUMNS := GSHEETS_COLUMNS w;
        requests_sent := requests_sent w ++ [rq];
        log := log w;
        sheet_updates := sheet_updates w |}).

Definition logging_error (msg : string) : M unit :=
  fun w =>
    (Ok tt,
     {| GSHEETS_COLUMNS := GSHEETS_COLUMNS w;
        requests_sent := requests_sent w;
        log := log w ++ [msg];
        sheet_updates := sheet_updates w |}).

Definition transactions_request (budget token : pyval) : request :=
  {| url := YNAB_BASE_URL ++ "/budgets/" ++ py_str budget ++ "/transactions";
     headers := [("Authorization", "Bearer " ++ py_str token)];
     params := [("since_date", YNAB_START_YEAR)] |}.

(** [response.json()['data']['transactions']] *)
Definition transactions_of (r : response) : result pyval :=
  try body <- response_json r;
  try data <- py_getitem body "data";
  py_getitem data "transactions".

(** The body of the [for] loop: one request, and the new value of
    [txns_list].  The status is only looked at to log an error. *)
Definition fetch_attempt (env : environment) (auth : AuthData) : M pyval :=
  do budget <- lift (get_ynab_budget auth);
  do token <- lift (get_ynab_token auth);
  do response <- requests_get env (transactions_request budget token);
  do _ <- (if negb (status_code response =? 200) then
             do body <- lift (response_json response);
             logging_error ("got response " ++ string_of_Z (status_code response)
                            ++ " when fetching YNAB transactions: "
                            ++ py_str body)
           else ret tt);
  lift (transactions_of response).

Fixpoint fetch_loop (n : nat) (env : environment) (auth : AuthData)
    (txns_list : pyval) : M pyval :=
  match n with
  | O => ret txns_list
  | S n' =>
      do txns_list' <- fetch_attempt env auth;
      fetch_loop n' env auth txns_list'
  end.

Definition get_ynab_transactions (env : environment) (auth : AuthData)
  : M pyval :=
  fetch_loop YNAB_FETCH_RETRIES env auth (PyList []).

(** *** Transaction Formatter: [format_ynab_transactions] *)

(** [float(val / 1000)].  The quotient of an [int] (or a [bool], which is
    an [int]) by [1000] is the correctly rounded float; a float is divided
    as a float; nothing else can be divided. *)
Definition thousand : spec_float := binary_normalize prec emax 1000 0 false.

Definition convert_milliunits_to_dollar_amount (val : pyval)
  : result spec_float :=
  match val with
  | PyInt z => int_true_div z 1000
  | PyBool b => int_true_div (if b then 1 else 0) 1000
  | PyFloat f => float_true_div f thousand
  | PyNone | PyStr _ | PyList _ | PyDict _ => Raise TypeError
  end.

(** A row of the table: the list object [GSHEETS_COLUMNS] itself, which
    the formatter puts first, or a list of cells of its own. *)
Inductive row : Type :=
| HeaderRef
| Cells (cells : list string).

(** The cells of a row in a given state of the process. *)
Definition row_cells (w : world) (r : row) : list string :=
  match r with
  | HeaderRef => GSHEETS_COLUMNS w
  | Cells cells => cells
  end.

Definition table_cells (w : world) (t : list row) : list (list string) :=
  row_cells w <$> t.

(** The test of line 125: does the loop [continue] past this
    transaction? *)
Definition skipped (transaction : pyval) : result bool :=
  if YNAB_TXNS_APPROVED_ONLY then
    try present <- py_contains "approved" transaction;
    if present then
      try approved <- py_getitem transaction "approved";
      Ok (negb (py_truth approved))
    else Ok false
  else Ok false.

(** One round of the inner loop, on the transaction object and the cells
    collected so far. *)
Definition format_column (column : string) (st : pyval * list string)
  : result (pyval * list string) :=
  let '(transaction, relevant_txn_columns) := st in
  try transaction <-
    (if String.eqb column "amount" then
       try val <- py_getitem transaction column;
       try amount <- convert_milliunits_to_dollar_amount val;
       py_setitem transaction column (PyFloat amount)
     else Ok transaction);
  try cell <- py_getitem transaction column;
  Ok (transaction, (relevant_txn_columns ++ [py_str cell])%list).

Fixpoint format_columns (columns : list string) (st : pyval * list string)
  : result (pyval * list string) :=
  match columns with
  | [] => Ok st
  | column :: columns' =>
      try st' <- format_column column st;
      format_columns columns' st'
  end.

(** The body of the outer loop on one transaction: the transaction object
    afterwards, and the cells of the row appended, if the loop did not
    [continue] past it. *)
Definition format_transaction (transaction : pyval)
  : result (pyval * option (list string)) :=
  try skip <- skipped transaction;
  if skip then Ok (transaction, None)
  else
    try st <- format_columns YNAB_COLUMNS (transaction, []);
    Ok (st.1, Some st.2).

(** The outer loop: the transaction objects after the loop, and the data
    rows appended, in order. *)
Fixpoint format_rows (raw_txns : list pyval)
  : result (list pyval * list row) :=
  match raw_txns with
  | [] => Ok ([], [])
  | transaction :: rest =>
      try o <- format_transaction transaction;
      try r <- format_rows rest;
      Ok (o.1 :: r.1,
          match o.2 with
          | Some cells => Cells cells :: r.2
          | None => r.2
          end)
  end.

(** [header.append(...)] on the list object bound to [GSHEETS_COLUMNS]. *)
Definition append_to_columns (cell : string) : M unit :=
  fun w =>
    (Ok tt,
     {| GSHEETS_COLUMNS := GSHEETS_COLUMNS w ++ [cell];
        requests_sent := requests_sent w;
        log := log w;
        sheet_updates := sheet_updates w |}).

(** The object [raw_txns] after the loop has run over its elements. *)
Definition store_elements (raw_txns : pyval) (elements : list pyval) : pyval :=
  match raw_txns with
  | PyList _ => PyList elements
  | _ => raw_txns
  end.

(** ['Time Updated: %s' % time.ctime()] *)
Definition time_updated (now : string) : string := "Time Updated: " ++ now.

(** The formatter returns the table; the second component is the caller's
    [raw_txns] object as the call leaves it.  [now] is what [time.ctime()]
    returns during the call. *)
Definition format_ynab_transactions (now : string) (auth : AuthData)
    (raw_txns : pyval) : M (list row * pyval) :=
  do _ <- append_to_columns (time_updated now);
  do elements <- lift (py_iter raw_txns);
  do r <- lift (format_rows elements);
  ret (HeaderRef :: r.2, store_elements raw_txns r.1).

(** *** Sheet Writer: [post_gsheets_transactions] *)

Definition worksheet_update (sheet ws rng : string) (t : list row) : M unit :=
  fun w =>
    (Ok tt,
     {| GSHEETS_COLUMNS := GSHEETS_COLUMNS w;
        requests_sent := requests_sent w;
        log := log w;
        sheet_updates :=
          sheet_updates w ++
          [{| spreadsheet := sheet; worksheet := ws; sheet_range := rng;
              values := table_cells w t |}] |}).

Definition post_gsheets_transactions (env : environment) (auth : AuthData)
    (transaction_sheet : list row) : M unit :=
  if negb (key_accepted env (get_gsheet_file auth)) then
    lift (Raise GSpreadAuthError)
  else
    match spreadsheets env !! GSHEET_SPREADSHEET_NAME with
    | None => lift (Raise SpreadsheetNotFound)
    | Some worksheets =>
        if existsb (String.eqb GSHEET_TXNS_SHEET_NAME) worksheets then
          worksheet_update GSHEET_SPREADSHEET_NAME GSHEET_TXNS_SHEET_NAME
            "A:Z" transaction_sheet
        else lift (Raise WorksheetNotFound)
    end.

(** *** [main], after the command line is parsed *)

Definition main (env : environment) (gsheet_path ynab_path : string)
  : M unit :=
  do auth <- lift (AuthData_init (fs env) gsheet_path ynab_path);
  do raw_txns <- get_ynab_transactions env auth;
  do formatted_txns <- format_ynab_transactions (ctime env) auth raw_txns;
  post_gsheets_transactions env auth formatted_txns.1.

(** The loader built from the sample files. *)
Definition sample_auth : AuthData :=
  {| gsheet_file := "key.json"; ynab_file_dict := PyDict sample_credentials |}.

(** ** Definitions used to state the properties *)

(** The transaction has an approval field and its value is false, in the
    sense of [not]. *)
Definition approved_is_false (d : gmap string pyval) : bool :=
  match d !! "approved" with
  | Some v => negb (py_truth v)
  | None => false
  end.

(** The transaction has the six columns the formatter reads, the amount
    being an integer in the signed 64-bit range of the budgeting API. *)
Definition well_formed_transaction (d : gmap string pyval) : Prop :=
  Forall (fun column => is_Some (d !! column)) YNAB_COLUMNS
  /\ exists a : Z, d !! "amount" = Some (PyInt a) /\ - 2 ^ 63 <= a < 2 ^ 63.

(** The state the formatter leaves: the timestamp cell is appended to the
    list object behind [GSHEETS_COLUMNS], whatever happens next. *)
Definition stamped (now : string) (w : world) : world :=
  (append_to_columns (time_updated now) w).2.

(** One call of the formatter: what [time.ctime()] returns during it, and
    its arguments. *)
Record call : Type := {
  call_time : string;
  call_auth : AuthData;
  call_raw_txns : pyval
}.

(** Successive calls in one process: what each returned or raised, and the
    state after the last. *)
Fixpoint invocations (calls : list call) (w : world)
  : list (result (list row * pyval)) * world :=
  match calls with
  | [] => ([], w)
  | c :: calls' =>
      let r := format_ynab_transactions (call_time c) (call_auth c)
                 (call_raw_txns c) w in
      let rs := invocations calls' r.2 in
      (r.1 :: rs.1, rs.2)
  end.

Definition timestamp_cell (c : call) : string :=
  time_updated (call_time c).

(** [convert(v) / 1000] *)
Definition converted_then_divided (v : Z) : result spec_float :=
  try x <- convert_milliunits_to_dollar_amount (PyInt v);
  float_true_div x thousand.

(** [convert(v / 1000 * 1000)], with [/] the true division of Python. *)
Definition convert_rescaled (v : Z) : result spec_float :=
  try q <- int_true_div v 1000;
  convert_milliunits_to_dollar_amount (PyFloat (SFmul prec emax q thousand)).

(** [convert(v // 1000 * 1000)], with the quotient taken in the integers. *)
Definition convert_floor_rescaled (v : Z) : result spec_float :=
  convert_milliunits_to_dollar_amount (PyInt (v / 1000 * 1000)).

(** [convert(v / 1000)] *)
Definition convert_quotient (v : Z) : result spec_float :=
  try q <- int_true_div v 1000;
  convert_milliunits_to_dollar_amount (PyFloat q).

(** [r1 == r2] is evaluated and is [True]. *)
Definition results_equal (r1 r2 : result spec_float) : bool :=
  match r1, r2 with
  | Ok x, Ok y => float_eqb x y
  | _, _ => false
  end.

(** A loader whose file held a JSON array. *)
Definition array_auth : AuthData :=
  {| gsheet_file := "key.json";
     ynab_file_dict := PyList [PyStr "YNAB_TOKEN"] |}.

(** What one attempt of the fetcher makes of the answer to the [n]-th
    request of the run: the list under [data.transactions], or the
    exception of the request or of reading the body. *)
Definition attempt_outcome (env : environment) (rq : request) (n : nat)
  : result pyval :=
  try r <- http env n rq;
  transactions_of r.

(** The lines one attempt logs for the response [r]: one error line when
    the status is not 200 and the body is JSON, none otherwise. *)
Definition attempt_log (r : response) : list string :=
  if negb (status_code r =? 200) then
    match response_json r with
    | Ok body =>
        ["got response " ++ string_of_Z (status_code r)
         ++ " when fetching YNAB transactions: " ++ py_str body]
    | Raise _ => []
    end
  else [].

Definition is_dict (v : pyval) : bool :=
  match v with
  | PyDict _ => true
  | _ => false
  end.

Definition is_list (v : pyval) : bool :=
  match v with
  | PyList _ => true
  | _ => false
  end.

(** The state after an attempt that sent [rq] and logged [lines]. *)
Definition attempted (rq : request) (lines : list string) (w : world) : world :=
  {| GSHEETS_COLUMNS := GSHEETS_COLUMNS w;
     requests_sent := requests_sent w ++ [rq];
     log := log w ++ lines;
     sheet_updates := sheet_updates w |}.

(** ** Properties *)

(** *** The quotient of two 64-bit integers is a finite float *)

Lemma digits2_pos_bound (p : positive) (k : Z) :
  Z.pos p < 2 ^ k -> Z.pos (digits2_pos p) <= k.
Proof.
  revert k.
  assert (Hpos : forall (q : positive) (j : Z), 1 < Z.pos q < 2 ^ j -> 0 < j).
  { intros q j [H1 H2]. destruct (Z.lt_trichotomy j 0) as [Hj | [-> | Hj]].
    - rewrite Z.pow_neg_r in H2 by done. lia.
    - rewrite Z.pow_0_r in H2. lia.
    - done. }
  induction p as [p IH | p IH |]; intros k H; cbn [digits2_pos].
  - assert (0 < k) by (apply (Hpos (xI p)); lia).
    replace k with (Z.succ (k - 1)) in H by lia.
    rewrite Z.pow_succ_r in H by lia.
    specialize (IH (k - 1)). lia.
  - assert (0 < k) by (apply (Hpos (xO p)); lia).
    replace k with (Z.succ (k - 1)) in H by lia.
    rewrite Z.pow_succ_r in H by lia.
    specialize (IH (k - 1)). lia.
  - destruct (Z.lt_trichotomy k 0) as [Hk | [-> | Hk]]; [| | lia].
    + rewrite Z.pow_neg_r in H by done. lia.
    + rewrite Z.pow_0_r in H. lia.
Qed.

Lemma Zdigits2_bound (m k : Z) :
  0 <= m < 2 ^ k -> 0 <= k -> 0 <= Zdigits2 m <= k.
Proof.
  intros [H0 H1] Hk. destruct m as [| p | p]; cbn [Zdigits2]; [lia | | lia].
  pose proof (digits2_pos_bound p k H1). lia.
Qed.

Lemma shr_1_bounds (mrs : shr_record) :
  0 <= shr_m mrs -> 0 <= shr_m (shr_1 mrs) <= shr_m mrs.
Proof.
  destruct mrs as [m r s]. cbn [shr_m]. intros H.
  destruct m as [| [p | p |] | p]; cbn; lia.
Qed.

Lemma iter_shr_1_bounds (p : positive) (mrs : shr_record) :
  0 <= shr_m mrs -> 0 <= shr_m (SpecFloat.iter_pos shr_1 p mrs) <= shr_m mrs.
Proof.
  revert mrs.
  induction p as [p IH | p IH |]; intros mrs H; cbn [SpecFloat.iter_pos].
  - pose proof (shr_1_bounds mrs H) as H1.
    pose proof (IH (shr_1 mrs) (proj1 H1)) as H2.
    pose proof (IH _ (proj1 H2)). lia.
  - pose proof (IH mrs H) as H2.
    pose proof (IH _ (proj1 H2)). lia.
  - by apply shr_1_bounds.
Qed.

Lemma shr_fexp_bounds (m e : Z) (l : location) :
  0 <= m ->
  0 <= shr_m (shr_fexp prec emax m e l).1 <= m
  /\ (shr_fexp prec emax m e l).2
     = Z.max e (fexp prec emax (Zdigits2 m + e)).
Proof.
  intros Hm. unfold shr_fexp, shr.
  assert (Hrec : shr_m (shr_record_of_loc m l) = m) by (by destruct l as [| []]).
  destruct (fexp prec emax (Zdigits2 m + e) - e) as [| p | p] eqn:E;
    cbn [fst snd].
  - rewrite Hrec. lia.
  - pose proof (iter_shr_1_bounds p (shr_record_of_loc m l)) as H.
    rewrite Hrec in H. specialize (H Hm). lia.
  - rewrite Hrec. lia.
Qed.

Lemma round_nearest_even_bounds (m : Z) (l : location) :
  m <= round_nearest_even m l <= m + 1.
Proof.
  unfold round_nearest_even. destruct l as [| []]; try lia.
  destruct (Z.even m); lia.
Qed.

Lemma binary_round_aux_finite (s : bool) (m e : Z) (l : location) :
  0 <= m < 2 ^ 200 -> -1074 <= e <= 0 ->
  is_finite (binary_round_aux prec emax s m e l) = true.
Proof.
  intros Hm He. unfold binary_round_aux.
  pose proof (shr_fexp_bounds m e l (proj1 Hm)) as [Hm1 He1].
  destruct (shr_fexp prec emax m e l) as [mrs1 e1]. cbn [fst snd] in Hm1, He1.
  pose proof (round_nearest_even_bounds (shr_m mrs1) (loc_of_shr_record mrs1))
    as Hr.
  set (m2 := round_nearest_even (shr_m mrs1) (loc_of_shr_record mrs1)) in *.
  assert (Hm2 : 0 <= m2) by lia.
  pose proof (shr_fexp_bounds m2 e1 loc_Exact Hm2) as [Hm3 He3].
  destruct (shr_fexp prec emax m2 e1 loc_Exact) as [mrs2 e2].
  cbn [fst snd] in Hm3, He3.
  destruct (shr_m mrs2) as [| p | p]; [done | | lia].
  assert (Hd1 : 0 <= Zdigits2 m <= 200) by (apply Zdigits2_bound; lia).
  assert (Hd2 : 0 <= Zdigits2 m2 <= 201).
  { apply Zdigits2_bound; [| lia]. split; [lia |].
    assert (2 ^ 200 < 2 ^ 201) by (apply Z.pow_lt_mono_r; lia). lia. }
  unfold fexp, emin, prec, emax in *.
  assert (e2 <= 1024 - 53) as H by lia.
  apply Z.leb_le in H. by rewrite H.
Qed.

Lemma round_ratio_finite (s : bool) (n d : positive) :
  Z.pos n < 2 ^ 64 -> Z.pos d < 2 ^ 64 ->
  is_finite (round_ratio s n d) = true.
Proof.
  intros Hn Hd. unfold round_ratio, SFdiv, SFdiv_core_binary.
  pose proof (Zdigits2_bound (Z.pos n) 64) as Hd1.
  pose proof (Zdigits2_bound (Z.pos d) 64) as Hd2.
  set (d1 := Zdigits2 (Z.pos n)) in *. set (d2 := Zdigits2 (Z.pos d)) in *.
  set (e' := Z.min (fexp prec emax (d1 + 0 - (d2 + 0))) (0 - 0)).
  assert (He : -1074 <= e' <= 0 /\ 0 - 0 - e' <= 117).
  { unfold e', fexp, emin, prec, emax. lia. }
  set (m' := match 0 - 0 - e' with
             | 0 => Z.pos n
             | Z.pos _ => Z.shiftl (Z.pos n) (0 - 0 - e')
             | Z.neg _ => 0
             end).
  assert (Hm : 0 <= m' < 2 ^ 181).
  { unfold m'. destruct (0 - 0 - e') as [| p | p] eqn:E.
    - split; [lia |]. assert (2 ^ 64 < 2 ^ 181) by (apply Z.pow_lt_mono_r; lia).
      lia.
    - rewrite Z.shiftl_mul_pow2 by lia.
      assert (0 < 2 ^ Z.pos p <= 2 ^ 117).
      { split; [apply Z.pow_pos_nonneg; lia | apply Z.pow_le_mono_r; lia]. }
      replace (2 ^ 181) with (2 ^ 64 * 2 ^ 117)
        by (rewrite <- Z.pow_add_r by lia; done).
      nia.
    - split; [lia | apply Z.pow_pos_nonneg; lia]. }
  destruct (Z.div_eucl m' (Z.pos d)) as [q r] eqn:E.
  assert (Hq : q = m' / Z.pos d) by (unfold Z.div; by rewrite E).
  apply binary_round_aux_finite; [| lia].
  assert (0 <= q <= m').
  { subst q. split; [apply Z.div_pos; lia |].
    apply Z.div_le_upper_bound; [lia | nia]. }
  assert (2 ^ 181 < 2 ^ 200) by (apply Z.pow_lt_mono_r; lia).
  lia.
Qed.

Lemma int_true_div_in_range (a : Z) :
  - 2 ^ 64 < a < 2 ^ 64 -> exists x, int_true_div a 1000 = Ok x.
Proof.
  intros Ha.
  assert (H1000 : Z.pos 1000 < 2 ^ 64) by done.
  destruct a as [| n | n]; cbn [int_true_div].
  - eauto.
  - rewrite round_ratio_finite by (done || lia). eauto.
  - rewrite round_ratio_finite by (done || lia). eauto.
Qed.

(** *** The inner loop on one transaction *)

Lemma rbind_Ok_inv {A B} (r : result A) (k : A -> result B) (b : B) :
  rbind r k = Ok b -> exists a, r = Ok a /\ k a = Ok b.
Proof. destruct r as [a|e]; simpl; [eauto | discriminate]. Qed.

Lemma py_getitem_dict (d : gmap string pyval) (key : string) (v : pyval) :
  d !! key = Some v -> py_getitem (PyDict d) key = Ok v.
Proof. intros H. unfold py_getitem. by rewrite H. Qed.

Lemma py_getitem_Ok_inv (t : pyval) (key : string) (v : pyval) :
  py_getitem t key = Ok v -> exists d, t = PyDict d /\ d !! key = Some v.
Proof.
  destruct t; simpl; try discriminate.
  destruct (d !! key) eqn:E; [| discriminate].
  intros [= ->]. eauto.
Qed.

Lemma format_column_plain (column : string) (d : gmap string pyval)
    (acc : list string) (v : pyval) :
  String.eqb column "amount" = false ->
  d !! column = Some v ->
  format_column column (PyDict d, acc) = Ok (PyDict d, (acc ++ [py_str v])%list).
Proof.
  intros Hc Hv. unfold format_column. rewrite Hc. simpl. by rewrite Hv.
Qed.

Lemma format_column_amount (d : gmap string pyval) (acc : list string)
    (val : pyval) (x : spec_float) :
  d !! "amount" = Some val ->
  convert_milliunits_to_dollar_amount val = Ok x ->
  format_column "amount" (PyDict d, acc)
  = Ok (PyDict (<["amount" := PyFloat x]> d), (acc ++ [float_repr x])%list).
Proof.
  intros Hv Hx. unfold format_column.
  change (String.eqb "amount" "amount") with true.
  cbv iota. rewrite (py_getitem_dict _ _ _ Hv). simpl. rewrite Hx. simpl.
  by rewrite lookup_insert_eq.
Qed.

Ltac plain_column H :=
  erewrite format_column_plain by (reflexivity || exact H);
  cbn [rbind format_columns].

Lemma format_columns_dict (d : gmap string pyval) (acc : list string)
    (vd va vp vm vc val : pyval) (x : spec_float) :
  d !! "date" = Some vd ->
  d !! "account_name" = Some va ->
  d !! "payee_name" = Some vp ->
  d !! "memo" = Some vm ->
  d !! "category_name" = Some vc ->
  d !! "amount" = Some val ->
  convert_milliunits_to_dollar_amount val = Ok x ->
  format_columns YNAB_COLUMNS (PyDict d, acc)
  = Ok (PyDict (<["amount" := PyFloat x]> d),
        (acc ++ [py_str vd; py_str va; py_str vp; py_str vm; py_str vc;
                 float_repr x])%list).
Proof.
  intros Hd Ha Hp Hm Hc Hv Hx.
  unfold YNAB_COLUMNS. cbn [format_columns].
  plain_column Hd. plain_column Ha. plain_column Hp. plain_column Hm.
  plain_column Hc.
  rewrite (format_column_amount _ _ _ _ Hv Hx). cbn [rbind].
  by rewrite <- !app_assoc.
Qed.

Lemma format_column_plain_inv (column : string) (t t' : pyval)
    (acc cells : list string) :
  String.eqb column "amount" = false ->
  format_column column (t, acc) = Ok (t', cells) ->
  exists d v, t = PyDict d /\ t' = t /\ d !! column = Some v
              /\ cells = (acc ++ [py_str v])%list.
Proof.
  intros Hc. unfold format_column. rewrite Hc. cbn [rbind].
  intros H. apply rbind_Ok_inv in H as (v & Hv & [= <- <-]).
  apply py_getitem_Ok_inv in Hv as (d & -> & Hv). eauto 10.
Qed.

Lemma format_column_amount_inv (t t' : pyval) (acc cells : list string) :
  format_column "amount" (t, acc) = Ok (t', cells) ->
  exists d val x, t = PyDict d /\ d !! "amount" = Some val
    /\ convert_milliunits_to_dollar_amount val = Ok x
    /\ t' = PyDict (<["amount" := PyFloat x]> d)
    /\ cells = (acc ++ [float_repr x])%list.
Proof.
  unfold format_column. change (String.eqb "amount" "amount") with true.
  cbv iota. intros H.
  apply rbind_Ok_inv in H as (t1 & H1 & H).
  apply rbind_Ok_inv in H1 as (val & Hval & H1).
  apply rbind_Ok_inv in H1 as (x & Hx & H1).
  apply py_getitem_Ok_inv in Hval as (d & -> & Hval).
  simpl in H1. injection H1 as <-.
  simpl in H. rewrite lookup_insert_eq in H. injection H as <- <-.
  eauto 10.
Qed.

Lemma format_columns_inv (t t' : pyval) (acc cells : list string) :
  format_columns YNAB_COLUMNS (t, acc) = Ok (t', cells) ->
  exists d vd va vp vm vc val x,
    t = PyDict d
    /\ d !! "date" = Some vd
    /\ d !! "account_name" = Some va
    /\ d !! "payee_name" = Some vp
    /\ d !! "memo" = Some vm
    /\ d !! "category_name" = Some vc
    /\ d !! "amount" = Some val
    /\ convert_milliunits_to_dollar_amount val = Ok x
    /\ t' = PyDict (<["amount" := PyFloat x]> d)
    /\ cells = (acc ++ [py_str vd; py_str va; py_str vp; py_str vm;
                        py_str vc; float_repr x])%list.
Proof.
  unfold YNAB_COLUMNS. cbn [format_columns]. intros H.
  apply rbind_Ok_inv in H as ([t1 c1] & H1 & H).
  apply rbind_Ok_inv in H as ([t2 c2] & H2 & H).
  apply rbind_Ok_inv in H as ([t3 c3] & H3 & H).
  apply rbind_Ok_inv in H as ([t4 c4] & H4 & H).
  apply rbind_Ok_inv in H as ([t5 c5] & H5 & H).
  apply rbind_Ok_inv in H as ([t6 c6] & H6 & H).
  injection H as <- <-.
  apply format_column_plain_inv in H1 as (d & vd & -> & -> & Hd & ->); [| done].
  apply format_column_plain_inv in H2 as (? & va & [= <-] & -> & Ha & ->); [| done].
  apply format_column_plain_inv in H3 as (? & vp & [= <-] & -> & Hp & ->); [| done].
  apply format_column_plain_inv in H4 as (? & vm & [= <-] & -> & Hm & ->); [| done].
  apply format_column_plain_inv in H5 as (? & vc & [= <-] & -> & Hc & ->); [| done].
  apply format_column_amount_inv in H6 as (? & val & x & [= <-] & Hv & Hx & -> & ->).
  exists d, vd, va, vp, vm, vc, val, x.
  repeat split; try done. by rewrite <- !app_assoc.
Qed.

(** *** The approval test *)

Lemma skipped_dict (d : gmap string pyval) :
  skipped (PyDict d) = Ok (approved_is_false d).
Proof.
  unfold skipped, approved_is_false, YNAB_TXNS_APPROVED_ONLY, py_contains,
    py_getitem.
  destruct (d !! "approved") as [v|] eqn:E.
  - by rewrite bool_decide_true by eauto.
  - rewrite bool_decide_false; [done |]. by intros [? [=]].
Qed.

Lemma approved_is_false_spec (d : gmap string pyval) :
  approved_is_false d = true
  <-> exists v, d !! "approved" = Some v /\ py_truth v = false.
Proof.
  unfold approved_is_false. split.
  - destruct (d !! "approved") as [v|]; [| discriminate].
    intros H. exists v. split; [done |]. by destruct (py_truth v).
  - intros (v & -> & ->). done.
Qed.

(** *** The outer loop *)

Lemma format_transaction_skipped (d : gmap string pyval) :
  approved_is_false d = true ->
  format_transaction (PyDict d) = Ok (PyDict d, None).
Proof.
  intros H. unfold format_transaction. rewrite skipped_dict, H. done.
Qed.

Lemma format_transaction_kept (d : gmap string pyval) (st : pyval * list string) :
  approved_is_false d = false ->
  format_columns YNAB_COLUMNS (PyDict d, []) = Ok st ->
  format_transaction (PyDict d) = Ok (st.1, Some st.2).
Proof.
  intros H Hst. unfold format_transaction.
  rewrite skipped_dict, H. cbn [rbind]. by rewrite Hst.
Qed.

Lemma format_transaction_inv (t t' : pyval) (o : option (list string)) :
  format_transaction t = Ok (t', o) ->
  exists d, t = PyDict d /\
    match o with
    | None => approved_is_false d = true /\ t' = t
    | Some cells =>
        approved_is_false d = false
        /\ format_columns YNAB_COLUMNS (t, []) = Ok (t', cells)
    end.
Proof.
  unfold format_transaction. intros H.
  apply rbind_Ok_inv in H as (skip & Hs & H).
  destruct skip.
  - injection H as <- <-.
    destruct t as [| b | z | f | s | l | d]; try (by cbv in Hs).
    + unfold skipped, py_contains in Hs. cbn [rbind YNAB_TXNS_APPROVED_ONLY] in Hs.
      by destruct (bool_decide (is_Some (index 0 "approved" s))).
    + unfold skipped, py_contains in Hs. cbn [rbind YNAB_TXNS_APPROVED_ONLY] in Hs.
      by destruct (existsb _ l).
    + rewrite skipped_dict in Hs. injection Hs as Hs. eauto.
  - apply rbind_Ok_inv in H as ([t1 c1] & Hc & [= <- <-]).
    destruct (format_columns_inv _ _ _ _ Hc) as (d & _ & _ & _ & _ & _ & _ & _ & -> & _).
    rewrite skipped_dict in Hs. injection Hs as Hs. eauto.
Qed.

Lemma format_rows_Ok_iff (raw ts : list pyval) (rows : list row) :
  format_rows raw = Ok (ts, rows)
  <-> exists outs : list (pyval * option (list string)),
        Forall2 (fun t o => format_transaction t = Ok o) raw outs
        /\ ts = outs.*1
        /\ rows = Cells <$> omap snd outs.
Proof.
  split.
  - revert ts rows. induction raw as [| t rest IH]; intros ts rows H.
    + injection H as <- <-. exists []. by repeat constructor.
    + cbn [format_rows] in H.
      apply rbind_Ok_inv in H as ([t' o] & Ho & H).
      apply rbind_Ok_inv in H as ([ts' rows'] & Hr & [= <- <-]).
      destruct (IH _ _ Hr) as (outs & HF & -> & ->).
      exists ((t', o) :: outs). split; [by constructor |].
      split; [done |]. by destruct o.
  - intros (outs & HF & -> & ->).
    induction HF as [| t o rest outs Ho HF IH]; [done |].
    cbn [format_rows]. rewrite Ho. cbn [rbind]. rewrite IH. cbn [rbind].
    by destruct o as [t' [c|]].
Qed.

Lemma format_ynab_transactions_world (now : string) (auth : AuthData)
    (raw_txns : pyval) (w : world) :
  (format_ynab_transactions now auth raw_txns w).2 = stamped now w.
Proof.
  unfold format_ynab_transactions, bind, lift, stamped. simpl.
  destruct (py_iter raw_txns); [| done].
  by destruct (format_rows a).
Qed.

Lemma format_ynab_transactions_list (now : string) (auth : AuthData)
    (l : list pyval) (w : world) :
  format_ynab_transactions now auth (PyList l) w
  = (try r <- format_rows l; Ok (HeaderRef :: r.2, PyList r.1),
     stamped now w).
Proof.
  unfold format_ynab_transactions, bind, lift, stamped. simpl.
  by destruct (format_rows l).
Qed.

Lemma format_rows_app (l1 l2 ts1 ts2 : list pyval) (rows1 rows2 : list row) :
  format_rows l1 = Ok (ts1, rows1) ->
  format_rows l2 = Ok (ts2, rows2) ->
  format_rows (l1 ++ l2) = Ok (ts1 ++ ts2, rows1 ++ rows2)%list.
Proof.
  revert ts1 rows1. induction l1 as [| t l1 IH]; intros ts1 rows1 H1 H2.
  - injection H1 as <- <-. done.
  - cbn [format_rows app] in *.
    apply rbind_Ok_inv in H1 as ([t' o] & Ho & H1).
    apply rbind_Ok_inv in H1 as ([ts' rows'] & Hr & [= <- <-]).
    rewrite Ho. cbn [rbind]. rewrite (IH _ _ Hr H2). cbn [rbind].
    by destruct o.
Qed.

Lemma format_rows_six_cells (raw ts : list pyval) (rows : list row) :
  format_rows raw = Ok (ts, rows) ->
  Forall (fun r => exists cells, r = Cells cells /\ length cells = 6%nat) rows.
Proof.
  revert ts rows. induction raw as [| t rest IH]; intros ts rows H.
  - injection H as <- <-. constructor.
  - cbn [format_rows] in H.
    apply rbind_Ok_inv in H as ([t' o] & Ho & H).
    apply rbind_Ok_inv in H as ([ts' rows'] & Hr & [= <- <-]).
    specialize (IH _ _ Hr). destruct o as [cells|]; [| done].
    constructor; [| done].
    apply format_transaction_inv in Ho as (d & -> & _ & Hc).
    apply format_columns_inv in Hc
      as (? & vd & va & vp & vm & vc & val & x & _ & _ & _ & _ & _ & _ & _ & _ & _ & ->).
    eauto.
Qed.

Lemma format_rows_filter (ds : list (gmap string pyval)) :
  Forall (fun d => approved_is_false d = false ->
                   exists st, format_columns YNAB_COLUMNS (PyDict d, []) = Ok st)
         ds ->
  exists (ts : list pyval) (cs : list (list string)),
    format_rows (PyDict <$> ds) = Ok (ts, Cells <$> cs)
    /\ Forall2 (fun d cells =>
                  exists t', format_columns YNAB_COLUMNS (PyDict d, [])
                             = Ok (t', cells))
               (filter (fun d => approved_is_false d = false) ds) cs.
Proof.
  intros Hds. induction Hds as [| d ds Hd _ IH].
  - exists [], []. split; [done | constructor].
  - destruct IH as (ts & cs & Hrows & HF).
    destruct (approved_is_false d) eqn:E.
    + exists (PyDict d :: ts), cs. split.
      * cbn [fmap list_fmap format_rows].
        rewrite (format_transaction_skipped _ E). cbn [rbind].
        change (list_fmap _ _ PyDict ds) with (PyDict <$> ds).
        by rewrite Hrows.
      * rewrite filter_cons_False; [done |]. by rewrite E.
    + destruct (Hd eq_refl) as ([t' cells] & Hst).
      exists (t' :: ts), (cells :: cs). split.
      * cbn [fmap list_fmap format_rows].
        rewrite (format_transaction_kept _ _ E Hst). cbn [rbind].
        change (list_fmap _ _ PyDict ds) with (PyDict <$> ds).
        by rewrite Hrows.
      * rewrite filter_cons_True by done. constructor; eauto.
Qed.

Lemma well_formed_formats (d : gmap string pyval) :
  well_formed_transaction d ->
  exists st, format_columns YNAB_COLUMNS (PyDict d, []) = Ok st.
Proof.
  intros [Hcols (a & Ha & Hrange)].
  unfold YNAB_COLUMNS in Hcols.
  apply Forall_cons in Hcols as [[vd Hd] Hcols].
  apply Forall_cons in Hcols as [[va Hacc] Hcols].
  apply Forall_cons in Hcols as [[vp Hp] Hcols].
  apply Forall_cons in Hcols as [[vm Hm] Hcols].
  apply Forall_cons in Hcols as [[vc Hc] _].
  destruct (int_true_div_in_range a) as [x Hx].
  { assert (2 ^ 63 < 2 ^ 64) by done. lia. }
  eexists. eapply format_columns_dict; eauto.
Qed.

(** *** Formatter: the cells of a data row *)

(** C1.  A transaction with the six fields and an integer amount that the
    loop does not skip yields, at its place in the table, the row of the
    six cells [str(date)], [str(account_name)], [str(payee_name)],
    [str(memo)], [str(category_name)] and [str(amount / 1000)], in that
    order ([str] of a string is the string); the amount field of the
    transaction object is left holding the float.  The quotient
    [amount / 1000] is a float for every amount of 64 bits.  The example
    transaction of the specification yields
    ["2024-01-01"; "Checking"; "Store"; "m"; "Food"; "-12.34"]. *)
Theorem format_row_six_cells
    (now : string) (auth : AuthData) (w : world)
    (pre post pre' post' : list pyval) (rows1 rows2 : list row)
    (d : gmap string pyval) (vd va vp vm vc : pyval) (a : Z) (x : spec_float) :
  d !! "date" = Some vd ->
  d !! "account_name" = Some va ->
  d !! "payee_name" = Some vp ->
  d !! "memo" = Some vm ->
  d !! "category_name" = Some vc ->
  d !! "amount" = Some (PyInt a) ->
  int_true_div a 1000 = Ok x ->
  skipped (PyDict d) = Ok false ->
  format_rows pre = Ok (pre', rows1) ->
  format_rows post = Ok (post', rows2) ->
  format_ynab_transactions now auth (PyList (pre ++ PyDict d :: post)) w
  = (Ok (HeaderRef ::
         rows1 ++
         Cells [py_str vd; py_str va; py_str vp; py_str vm; py_str vc;
                float_repr x] :: rows2,
         PyList (pre' ++ PyDict (<["amount" := PyFloat x]> d) :: post'))%list,
     stamped now w)
  /\ (forall s, py_str (PyStr s) = s)
  /\ (forall a', - 2 ^ 64 < a' < 2 ^ 64 ->
                 exists x', int_true_div a' 1000 = Ok x')
  /\ rmap fst (format_ynab_transactions now auth
                 (PyList [PyDict example_transaction]) w).1
     = Ok [HeaderRef;
           Cells ["2024-01-01"; "Checking"; "Store"; "m"; "Food"; "-12.34"]].
Proof.
  intros Hd Ha Hp Hm Hc Hv Hx Hs Hpre Hpost.
  split; [| split; [done | split; [apply int_true_div_in_range |]]].
  - rewrite format_ynab_transactions_list.
    rewrite skipped_dict in Hs. injection Hs as Hs.
    assert (Hrow : format_rows (PyDict d :: post)
                   = Ok (PyDict (<["amount" := PyFloat x]> d) :: post',
                         Cells [py_str vd; py_str va; py_str vp; py_str vm;
                                py_str vc; float_repr x] :: rows2)).
    { cbn [format_rows].
      erewrite format_transaction_kept; [| exact Hs |].
      2:{ eapply format_columns_dict; eauto. }
      cbn [rbind]. rewrite Hpost. done. }
    rewrite (format_rows_app _ _ _ _ _ _ Hpre Hrow). done.
  - rewrite format_ynab_transactions_list. cbn [fst].
    by vm_compute.
Qed.

(** *** Formatter: the approved-only filter *)

(** C5.  The loop excludes exactly the transactions whose approval field
    is present with a false value: the data rows of the table are the
    rows of the other transactions, in order.  A transaction with
    [approved: false] is excluded, one without the field is not. *)
Theorem unapproved_transactions_excluded
    (now : string) (auth : AuthData) (w : world)
    (ds : list (gmap string pyval)) :
  Forall (fun d => approved_is_false d = false ->
                   exists st, format_columns YNAB_COLUMNS (PyDict d, []) = Ok st)
         ds ->
  (exists (ts : list pyval) (cs : list (list string)),
     format_ynab_transactions now auth (PyList (PyDict <$> ds)) w
     = (Ok (HeaderRef :: (Cells <$> cs), PyList ts), stamped now w)
     /\ Forall2 (fun d cells =>
                   exists t', format_columns YNAB_COLUMNS (PyDict d, [])
                              = Ok (t', cells))
                (filter (fun d => approved_is_false d = false) ds) cs)
  /\ (forall d, skipped (PyDict d) = Ok (approved_is_false d))
  /\ (forall d, approved_is_false d = true
                <-> exists v, d !! "approved" = Some v /\ py_truth v = false)
  /\ (forall d, d !! "approved" = Some (PyBool false) ->
                skipped (PyDict d) = Ok true)
  /\ (forall d, d !! "approved" = None -> skipped (PyDict d) = Ok false).
Proof.
  intros Hds. split; [| split; [| split; [| split]]].
  - destruct (format_rows_filter ds Hds) as (ts & cs & Hrows & HF).
    exists ts, cs. split; [| done].
    rewrite format_ynab_transactions_list, Hrows. done.
  - apply skipped_dict.
  - apply approved_is_false_spec.
  - intros d Hd. rewrite skipped_dict. unfold approved_is_false. by rewrite Hd.
  - intros d Hd. rewrite skipped_dict. unfold approved_is_false. by rewrite Hd.
Qed.

(** *** Formatter: the header and the data rows *)

(** C6.  When the formatter runs on the list [GSHEETS_COLUMNS] as the
    module defines it, the header of the table it returns has seven cells,
    the six column names and the timestamp cell, and every data row has
    six: the header has exactly one cell more than every data row. *)
Theorem header_one_more_than_rows
    (now : string) (auth : AuthData) (raw_txns raw_txns' : pyval)
    (w w' : world) (t : list row) :
  GSHEETS_COLUMNS w = GSHEETS_COLUMNS_init ->
  format_ynab_transactions now auth raw_txns w = (Ok (t, raw_txns'), w') ->
  exists (header : list string) (rows : list (list string)),
    table_cells w' t = header :: rows
    /\ header = (GSHEETS_COLUMNS_init ++ [time_updated now])%list
    /\ length header = 7%nat
    /\ Forall (fun r => length r = 6%nat /\ length header = S (length r)) rows.
Proof.
  intros Hw H.
  pose proof (format_ynab_transactions_world now auth raw_txns w) as Hw'.
  rewrite H in Hw'. cbn [snd] in Hw'. subst w'.
  unfold format_ynab_transactions, bind, lift, ret in H.
  cbn [append_to_columns] in H.
  destruct (py_iter raw_txns) as [elements |]; [| discriminate].
  destruct (format_rows elements) as [[ts rows] |] eqn:Hrows; [| discriminate].
  injection H as <- <-.
  exists (GSHEETS_COLUMNS_init ++ [time_updated now])%list,
         (row_cells (stamped now w) <$> rows).
  split; [| split; [done | split; [done |]]].
  - unfold table_cells. cbn [fmap list_fmap row_cells snd].
    unfold stamped at 1. cbn [append_to_columns snd GSHEETS_COLUMNS].
    by rewrite Hw.
  - apply format_rows_six_cells in Hrows.
    induction Hrows as [| r rows (cells & -> & Hlen) _ IH]; [constructor |].
    cbn [fmap list_fmap]. constructor; [| exact IH].
    cbn [row_cells]. by rewrite Hlen.
Qed.

(** *** Formatter: the shared header list *)

Lemma invocations_columns (calls : list call) (w : world) :
  GSHEETS_COLUMNS (invocations calls w).2
  = (GSHEETS_COLUMNS w ++ (timestamp_cell <$> calls))%list.
Proof.
  revert w. induction calls as [| c calls IH]; intros w.
  - cbn. by rewrite app_nil_r.
  - cbn [invocations snd]. rewrite IH, format_ynab_transactions_world.
    unfold stamped. cbn [append_to_columns snd GSHEETS_COLUMNS fmap list_fmap].
    by rewrite <- app_assoc.
Qed.

Lemma format_ynab_transactions_header (now : string) (auth : AuthData)
    (raw_txns raw_txns' : pyval) (w : world) (t : list row) :
  (format_ynab_transactions now auth raw_txns w).1 = Ok (t, raw_txns') ->
  exists rows, t = HeaderRef :: rows.
Proof.
  unfold format_ynab_transactions, bind, lift, ret.
  cbn [append_to_columns].
  destruct (py_iter raw_txns) as [elements |]; [| discriminate].
  destruct (format_rows elements) as [[ts rows] |]; [| discriminate].
  intros [= <- <-]. eauto.
Qed.

(** C9.  Every call appends its timestamp cell to the list object behind
    [GSHEETS_COLUMNS], not to a copy: after [k] calls in one process the
    list holds the six column names followed by the [k] timestamp cells,
    and the first row of every table returned so far, the [k]-th
    included, is that list. *)
Theorem shared_header_grows (calls : list call) (w : world) :
  GSHEETS_COLUMNS (invocations calls w).2
  = (GSHEETS_COLUMNS w ++ (timestamp_cell <$> calls))%list
  /\ GSHEETS_COLUMNS (invocations calls initial_world).2
     = (["Date"; "Account"; "Payee"; "Memo"; "Category"; "Amount"]
        ++ (timestamp_cell <$> calls))%list
  /\ length (GSHEETS_COLUMNS (invocations calls initial_world).2)
     = (6 + length calls)%nat
  /\ (forall (i : nat) (t : list row) (raw_txns' : pyval),
        (invocations calls w).1 !! i = Some (Ok (t, raw_txns')) ->
        head (table_cells (invocations calls w).2 t)
        = Some (GSHEETS_COLUMNS w ++ (timestamp_cell <$> calls))%list).
Proof.
  split; [apply invocations_columns |].
  split; [apply invocations_columns |].
  split.
  - rewrite invocations_columns, length_app, length_fmap. done.
  - intros i t raw' Hi.
    assert (exists rows, t = HeaderRef :: rows) as (rows & ->).
    { revert w i Hi. induction calls as [| c calls IH]; intros w i Hi.
      - by destruct i.
      - destruct i as [| i]; cbn [invocations fst] in Hi.
        + injection Hi as Hi. by eapply format_ynab_transactions_header.
        + by eapply IH. }
    cbn. by rewrite invocations_columns.
Qed.

(** *** Formatter: the transactions after the call *)

(** C10.  The formatter changes the transaction objects it is given: when
    it returns, every transaction the loop did not skip holds under
    [amount] the float [float(amount / 1000)] in place of the value it
    held, so a transaction with an integer amount is no longer what it
    was; every other field of every transaction, and the skipped
    transactions altogether, are as before. *)
Theorem formatter_overwrites_amount
    (now : string) (auth : AuthData) (raw : list pyval) (raw_txns' : pyval)
    (w w' : world) (t : list row) :
  format_ynab_transactions now auth (PyList raw) w = (Ok (t, raw_txns'), w') ->
  exists after : list pyval,
    raw_txns' = PyList after
    /\ Forall2
         (fun old new =>
            exists d d' : gmap string pyval,
              old = PyDict d /\ new = PyDict d'
              /\ (forall key, key <> "amount" -> d' !! key = d !! key)
              /\ if approved_is_false d then d' = d
                 else exists val x,
                     d !! "amount" = Some val
                     /\ convert_milliunits_to_dollar_amount val = Ok x
                     /\ d' = <["amount" := PyFloat x]> d
                     /\ d' !! "amount" = Some (PyFloat x)
                     /\ (forall a, val = PyInt a ->
                                   int_true_div a 1000 = Ok x /\ d' <> d))
         raw after.
Proof.
  rewrite format_ynab_transactions_list. intros H.
  injection H as H _.
  apply rbind_Ok_inv in H as ([ts rows] & Hrows & [= <- <-]).
  exists ts. split; [done |]. cbn [fst].
  apply format_rows_Ok_iff in Hrows as (outs & HF & -> & _).
  induction HF as [| old [new o] raw outs Ho HF IH]; [constructor |].
  cbn [fmap list_fmap fst]. constructor; [| exact IH].
  apply format_transaction_inv in Ho as (d & -> & Ho).
  destruct o as [cells |].
  - destruct Ho as [E Hc].
    apply format_columns_inv in Hc
      as (? & vd & va & vp & vm & vc & val & x & [= <-] & _ & _ & _ & _ & _
          & Hv & Hx & -> & _).
    exists d, (<["amount" := PyFloat x]> d).
    split; [done |]. split; [done |].
    split; [intros key Hk; by rewrite lookup_insert_ne |].
    rewrite E. exists val, x.
    split; [done |]. split; [done |]. split; [done |].
    split; [apply lookup_insert_eq |].
    intros a ->. split; [exact Hx |].
    intros Heq.
    assert (Hl : (<["amount" := PyFloat x]> d) !! "amount" = d !! "amount")
      by (by rewrite Heq).
    rewrite lookup_insert_eq, Hv in Hl. discriminate.
  - destruct Ho as [E ->]. exists d, d.
    split; [done |]. split; [done |]. split; [done |]. by rewrite E.
Qed.

(** *** Credential Loader *)

Lemma accessor_dict (d : gmap string pyval) (key : string) :
  (try present <- py_contains key (PyDict d);
   if negb present then Raise KeyError else py_getitem (PyDict d) key)
  = match d !! key with
    | Some v => Ok v
    | None => Raise KeyError
    end.
Proof.
  unfold py_contains, py_getitem. cbn [rbind].
  destruct (d !! key) as [v|] eqn:E.
  - by rewrite bool_decide_true by eauto.
  - rewrite bool_decide_false; [done |]. by intros [? [=]].
Qed.

Lemma get_ynab_token_dict (g : string) (d : gmap string pyval) :
  get_ynab_token {| gsheet_file := g; ynab_file_dict := PyDict d |}
  = match d !! "YNAB_TOKEN" with
    | Some v => Ok v
    | None => Raise KeyError
    end.
Proof. apply accessor_dict. Qed.

Lemma get_ynab_budget_dict (g : string) (d : gmap string pyval) :
  get_ynab_budget {| gsheet_file := g; ynab_file_dict := PyDict d |}
  = match d !! "YNAB_BUDGET" with
    | Some v => Ok v
    | None => Raise KeyError
    end.
Proof. apply accessor_dict. Qed.

Lemma AuthData_init_ok (files : gmap string node)
    (gsheet_path ynab_path : string) (v : pyval) :
  is_Some (files !! gsheet_path) ->
  files !! ynab_path = Some (File (Some v)) ->
  AuthData_init files gsheet_path ynab_path
  = Ok {| gsheet_file := gsheet_path; ynab_file_dict := v |}.
Proof.
  intros Hg Hy. unfold AuthData_init, path_exists, open_and_load.
  rewrite bool_decide_true by done.
  rewrite bool_decide_true by (rewrite Hy; eauto).
  by rewrite Hy.
Qed.

(** C3.  When both paths exist and the second file holds a JSON object
    with the keys [YNAB_TOKEN] and [YNAB_BUDGET], the loader is built, its
    token accessor returns the value under [YNAB_TOKEN], its budget
    accessor the value under [YNAB_BUDGET], and its key-file accessor the
    first path as given. *)
Theorem loader_returns_json_values
    (files : gmap string node) (gsheet_path ynab_path : string)
    (d : gmap string pyval) (token budget : pyval) :
  is_Some (files !! gsheet_path) ->
  files !! ynab_path = Some (File (Some (PyDict d))) ->
  d !! "YNAB_TOKEN" = Some token ->
  d !! "YNAB_BUDGET" = Some budget ->
  exists auth : AuthData,
    AuthData_init files gsheet_path ynab_path = Ok auth
    /\ get_ynab_token auth = Ok token
    /\ get_ynab_budget auth = Ok budget
    /\ get_gsheet_file auth = gsheet_path.
Proof.
  intros Hg Hy Ht Hb.
  exists {| gsheet_file := gsheet_path; ynab_file_dict := PyDict d |}.
  split; [| split; [| split; [| done]]].
  - by apply AuthData_init_ok.
  - rewrite get_ynab_token_dict. by rewrite Ht.
  - rewrite get_ynab_budget_dict. by rewrite Hb.
Qed.

(** C4.  Building the loader raises [FileNotFoundError] exactly when one
    of the two paths does not exist; on a parsed JSON object the token
    accessor raises [KeyError] exactly when the key [YNAB_TOKEN] is
    absent, and the budget accessor exactly when [YNAB_BUDGET] is. *)
Theorem loader_errors :
  (forall (files : gmap string node) (gsheet_path ynab_path : string),
     AuthData_init files gsheet_path ynab_path = Raise FileNotFoundError
     <-> files !! gsheet_path = None \/ files !! ynab_path = None)
  /\ (forall (g : string) (d : gmap string pyval),
        get_ynab_token {| gsheet_file := g; ynab_file_dict := PyDict d |}
        = Raise KeyError
        <-> d !! "YNAB_TOKEN" = None)
  /\ (forall (g : string) (d : gmap string pyval),
        get_ynab_budget {| gsheet_file := g; ynab_file_dict := PyDict d |}
        = Raise KeyError
        <-> d !! "YNAB_BUDGET" = None).
Proof.
  split; [| split].
  - intros files g y. unfold AuthData_init, path_exists, open_and_load.
    destruct (files !! g) as [ng|] eqn:Eg.
    + rewrite bool_decide_true by eauto. cbn [negb].
      destruct (files !! y) as [ny|] eqn:Ey.
      * rewrite bool_decide_true by eauto. cbn [negb].
        split; [| by intros [|]].
        by destruct ny as [| [v|]].
      * rewrite bool_decide_false by (by intros [? [=]]). cbn [negb].
        split; [by right | done].
    + rewrite bool_decide_false by (by intros [? [=]]). cbn [negb].
      split; [by left | done].
  - intros g d. rewrite get_ynab_token_dict. by destruct (d !! "YNAB_TOKEN").
  - intros g d. rewrite get_ynab_budget_dict. by destruct (d !! "YNAB_BUDGET").
Qed.

(** *** Transaction Fetcher *)

Lemma fetch_attempt_result (env : environment) (auth : AuthData) (w : world)
    (budget token : pyval) :
  get_ynab_budget auth = Ok budget ->
  get_ynab_token auth = Ok token ->
  (fetch_attempt env auth w).1
  = (try r <- http env (length (requests_sent w))
                (transactions_request budget token);
     transactions_of r)
  /\ requests_sent (fetch_attempt env auth w).2
     = (requests_sent w ++ [transactions_request budget token])%list.
Proof.
  intros Hb Ht. unfold fetch_attempt, bind, lift, requests_get.
  rewrite Hb, Ht.
  destruct (http env _ _) as [r | e]; [| done].
  cbn [rbind].
  destruct (negb (status_code r =? 200)); [| done].
  unfold transactions_of.
  destruct (response_json r) as [body | e]; done.
Qed.

Lemma fetch_attempt_frame (env : environment) (auth : AuthData) (w : world) :
  GSHEETS_COLUMNS (fetch_attempt env auth w).2 = GSHEETS_COLUMNS w
  /\ sheet_updates (fetch_attempt env auth w).2 = sheet_updates w.
Proof.
  unfold fetch_attempt, bind, lift, requests_get.
  destruct (get_ynab_budget auth); [| done].
  destruct (get_ynab_token auth); [| done].
  destruct (http env _ _) as [r | e]; [| done].
  destruct (negb (status_code r =? 200)).
  - destruct (response_json r) as [body | e]; [| done].
    cbn [logging_error]. by destruct (transactions_of r).
  - cbn [ret]. by destruct (transactions_of r).
Qed.

Lemma fetch_attempt_needs_auth (env : environment) (auth : AuthData)
    (w : world) (t : pyval) :
  (fetch_attempt env auth w).1 = Ok t ->
  exists budget token,
    get_ynab_budget auth = Ok budget /\ get_ynab_token auth = Ok token.
Proof.
  unfold fetch_attempt, bind, lift.
  destruct (get_ynab_budget auth) as [budget |]; [| discriminate].
  destruct (get_ynab_token auth) as [token |]; [| discriminate].
  eauto.
Qed.

Lemma length_snoc {A} (l : list A) (x : A) :
  length (l ++ [x])%list = S (length l).
Proof. rewrite length_app. cbn [length]. lia. Qed.

Lemma fetch_loop_step (n : nat) (env : environment) (auth : AuthData)
    (txns_list : pyval) (w : world) :
  fetch_loop (S n) env auth txns_list w
  = match (fetch_attempt env auth w).1 with
    | Ok t => fetch_loop n env auth t (fetch_attempt env auth w).2
    | Raise e => (Raise e, (fetch_attempt env auth w).2)
    end.
Proof.
  cbn [fetch_loop]. unfold bind.
  by destruct (fetch_attempt env auth w) as [[t | e] w1].
Qed.

Lemma get_ynab_transactions_last (env : environment) (auth : AuthData)
  (w : world) (budget token : pyval) (r0 r1 r2 : response)
  (t0 t1 v : pyval) :
  get_ynab_budget auth = Ok budget ->
  get_ynab_token auth = Ok token ->
  http env (length (requests_sent w))
  (transactions_request budget token) = Ok r0 ->
  http env (S (length (requests_sent w)))
  (transactions_request budget token) = Ok r1 ->
  http env (S (S (length (requests_sent w))))
  (transactions_request budget token) = Ok r2 ->
  transactions_of r0 = Ok t0 ->
  transactions_of r1 = Ok t1 ->
  transactions_of r2 = Ok v ->
  (get_ynab_transactions env auth w).1 = Ok v.
Proof.
  unfold get_ynab_transactions, YNAB_FETCH_RETRIES.
  intros Hb Ht H0 H1 H2 T0 T1 T2.
  destruct (fetch_attempt_result env auth w _ _ Hb Ht) as [R0 S0].
  rewrite fetch_loop_step, R0, H0. cbn [rbind]. rewrite T0.
  set (w1 := (fetch_attempt env auth w).2) in *.
  destruct (fetch_attempt_result env auth w1 _ _ Hb Ht) as [R1 S1].
  rewrite fetch_loop_step, R1, S0, length_snoc.
  rewrite H1. cbn [rbind]. rewrite T1.
  set (w2 := (fetch_attempt env auth w1).2) in *.
  destruct (fetch_attempt_result env auth w2 _ _ Hb Ht) as [R2 S2].
  rewrite fetch_loop_step, R2, S1, S0. repeat rewrite length_snoc.
  rewrite H2. cbn [rbind]. rewrite T2. done.
Qed.

(** C2.  The fetcher returns a list exactly when each of its three
    attempts is answered with a body in which [data.transactions] is
    found, and the list it returns is then the one of the last attempt:
    the lists of the first two attempts are dropped, and no status code
    takes part, so a last attempt with status 200 after two that failed
    gives that attempt's list. *)
Theorem fetcher_returns_last_attempt
    (env : environment) (auth : AuthData) (w : world) (v : pyval) :
  (get_ynab_transactions env auth w).1 = Ok v
  <-> exists (budget token : pyval) (r0 r1 r2 : response) (t0 t1 : pyval),
        get_ynab_budget auth = Ok budget
        /\ get_ynab_token auth = Ok token
        /\ http env (length (requests_sent w))
             (transactions_request budget token) = Ok r0
        /\ http env (S (length (requests_sent w)))
             (transactions_request budget token) = Ok r1
        /\ http env (S (S (length (requests_sent w))))
             (transactions_request budget token) = Ok r2
        /\ transactions_of r0 = Ok t0
        /\ transactions_of r1 = Ok t1
        /\ transactions_of r2 = Ok v.
Proof.
  split.
  - unfold get_ynab_transactions, YNAB_FETCH_RETRIES. intros H.
    rewrite fetch_loop_step in H.
    destruct (fetch_attempt env auth w).1 as [t0 | e] eqn:E0; [| discriminate].
    destruct (fetch_attempt_needs_auth _ _ _ _ E0) as (budget & token & Hb & Ht).
    destruct (fetch_attempt_result env auth w _ _ Hb Ht) as [R0 S0].
    rewrite fetch_loop_step in H.
    set (w1 := (fetch_attempt env auth w).2) in *.
    destruct (fetch_attempt env auth w1).1 as [t1 | e] eqn:E1; [| discriminate].
    destruct (fetch_attempt_result env auth w1 _ _ Hb Ht) as [R1 S1].
    rewrite fetch_loop_step in H.
    set (w2 := (fetch_attempt env auth w1).2) in *.
    destruct (fetch_attempt env auth w2).1 as [t2 | e] eqn:E2; [| discriminate].
    destruct (fetch_attempt_result env auth w2 _ _ Hb Ht) as [R2 S2].
    cbn [fetch_loop ret fst] in H. injection H as ->.
    rewrite R0 in E0. rewrite R1 in E1. rewrite R2 in E2.
    rewrite S1, S0 in E2. rewrite S0 in E1.
    repeat rewrite length_snoc in E1. repeat rewrite length_snoc in E2.
    apply rbind_Ok_inv in E0 as (r0 & H0 & T0).
    apply rbind_Ok_inv in E1 as (r1 & H1 & T1).
    apply rbind_Ok_inv in E2 as (r2 & H2 & T2).
    exists budget, token, r0, r1, r2, t0, t1. done.
  - intros (budget & token & r0 & r1 & r2 & t0 & t1
            & Hb & Ht & H0 & H1 & H2 & T0 & T1 & T2).
    exact (get_ynab_transactions_last env auth w budget token r0 r1 r2
             t0 t1 v Hb Ht H0 H1 H2 T0 T1 T2).
Qed.

(** *** The conversion of milliunits *)

(** C7, as amended.  The conversion of an integer [v] is the float
    quotient [v / 1000]; dividing the converted value by 1000 is
    converting the quotient [v / 1000], both raising together for a [v]
    beyond the range of floats; [convert(1000) == 1.0] and
    [convert(-500) == -0.5]. *)
Theorem conversion_divides_by_1000 (v : Z) :
  convert_milliunits_to_dollar_amount (PyInt v) = int_true_div v 1000
  /\ converted_then_divided v = convert_quotient v
  /\ results_equal (convert_milliunits_to_dollar_amount (PyInt 1000))
       (float_of_int 1) = true
  /\ rmap float_repr (convert_milliunits_to_dollar_amount (PyInt 1000))
     = Ok "1.0"
  /\ results_equal (convert_milliunits_to_dollar_amount (PyInt (-500)))
       (int_true_div (-1) 2) = true
  /\ rmap float_repr (convert_milliunits_to_dollar_amount (PyInt (-500)))
     = Ok "-0.5".
Proof.
  split; [done |]. split.
  - unfold converted_then_divided, convert_quotient.
    cbn [convert_milliunits_to_dollar_amount].
    destruct (int_true_div v 1000); done.
  - repeat split; by vm_compute.
Qed.

(** The identity of the specification fails at [v = 1000], however its
    inner division is read: the left side is [0.001], the right side
    [1.0]. *)
Lemma conversion_identity_fails :
  results_equal (converted_then_divided 1000) (convert_rescaled 1000) = false
  /\ results_equal (converted_then_divided 1000) (convert_floor_rescaled 1000)
     = false
  /\ rmap float_repr (converted_then_divided 1000) = Ok "0.001"
  /\ rmap float_repr (convert_rescaled 1000) = Ok "1.0"
  /\ rmap float_repr (convert_floor_rescaled 1000) = Ok "1.0".
Proof. repeat split; by vm_compute. Qed.

(** *** End to end *)

Lemma fetch_loop_frame (n : nat) (env : environment) (auth : AuthData)
    (txns_list : pyval) (w : world) :
  GSHEETS_COLUMNS (fetch_loop n env auth txns_list w).2 = GSHEETS_COLUMNS w
  /\ sheet_updates (fetch_loop n env auth txns_list w).2 = sheet_updates w.
Proof.
  revert txns_list w. induction n as [| n IH]; intros txns_list w; [done |].
  rewrite fetch_loop_step.
  destruct (fetch_attempt_frame env auth w) as [Hc Hu].
  destruct (fetch_attempt env auth w).1 as [t | e].
  - destruct (IH t (fetch_attempt env auth w).2) as [Hc' Hu'].
    by rewrite Hc', Hu'.
  - done.
Qed.

Lemma post_gsheets_transactions_ok (env : environment) (auth : AuthData)
    (t : list row) (w : world) (worksheets : list string) :
  key_accepted env (get_gsheet_file auth) = true ->
  spreadsheets env !! "Budget 2021" = Some worksheets ->
  "YNAB-Transactions" ∈ worksheets ->
  post_gsheets_transactions env auth t w
  = worksheet_update "Budget 2021" "YNAB-Transactions" "A:Z" t w.
Proof.
  intros Hk Hs Hw. unfold post_gsheets_transactions.
  rewrite Hk. cbn [negb].
  unfold GSHEET_SPREADSHEET_NAME, GSHEET_TXNS_SHEET_NAME. rewrite Hs.
  assert (existsb (String.eqb "YNAB-Transactions") worksheets = true) as ->;
    [| done].
  apply existsb_exists. exists "YNAB-Transactions".
  split; [by apply list_elem_of_In | apply String.eqb_refl].
Qed.

(** C8.  With valid credentials, three attempts that are answered, the
    last one with two well-formed approved transactions and one unapproved
    in any order, and a spreadsheet service that accepts the key and has the
    worksheet, [main] makes exactly one call of [update]: on worksheet
    [YNAB-Transactions] of spreadsheet [Budget 2021], range ["A:Z"], with
    a table of three rows, the header and two data rows. *)
Theorem end_to_end_three_rows
    (env : environment) (gsheet_path ynab_path : string)
    (creds : gmap string pyval) (token budget : pyval)
    (r0 r1 r2 : response) (t0 t1 : pyval)
    (ds : list (gmap string pyval)) (a1 a2 u : gmap string pyval)
    (worksheets : list string) :
  is_Some (fs env !! gsheet_path) ->
  fs env !! ynab_path = Some (File (Some (PyDict creds))) ->
  creds !! "YNAB_TOKEN" = Some token ->
  creds !! "YNAB_BUDGET" = Some budget ->
  http env 0%nat (transactions_request budget token) = Ok r0 ->
  http env 1%nat (transactions_request budget token) = Ok r1 ->
  http env 2%nat (transactions_request budget token) = Ok r2 ->
  transactions_of r0 = Ok t0 ->
  transactions_of r1 = Ok t1 ->
  transactions_of r2 = Ok (PyList (PyDict <$> ds)) ->
  ds ≡ₚ [a1; a2; u] ->
  a1 !! "approved" = Some (PyBool true) ->
  a2 !! "approved" = Some (PyBool true) ->
  u !! "approved" = Some (PyBool false) ->
  well_formed_transaction a1 ->
  well_formed_transaction a2 ->
  key_accepted env gsheet_path = true ->
  spreadsheets env !! "Budget 2021" = Some worksheets ->
  "YNAB-Transactions" ∈ worksheets ->
  exists (w' : world) (header : list string) (rows : list (list string)),
    main env gsheet_path ynab_path initial_world = (Ok tt, w')
    /\ sheet_updates w'
       = [{| spreadsheet := "Budget 2021";
             worksheet := "YNAB-Transactions";
             sheet_range := "A:Z";
             values := header :: rows |}]
    /\ length (header :: rows) = 3%nat
    /\ length rows = 2%nat
    /\ header = (GSHEETS_COLUMNS_init ++ [time_updated (ctime env)])%list.
Proof.
  intros Hg Hy Htok Hbud H0 H1 H2 T0 T1 T2 Hperm Ha1 Ha2 Hu F1 F2 Hk Hs Hws.
  set (auth := {| gsheet_file := gsheet_path; ynab_file_dict := PyDict creds |}).
  assert (Hb : get_ynab_budget auth = Ok budget).
  { unfold auth. rewrite get_ynab_budget_dict. by rewrite Hbud. }
  assert (Ht : get_ynab_token auth = Ok token).
  { unfold auth. rewrite get_ynab_token_dict. by rewrite Htok. }
  assert (Hfetch : (get_ynab_transactions env auth initial_world).1
                   = Ok (PyList (PyDict <$> ds))).
  { eapply get_ynab_transactions_last; eauto. }
  destruct (fetch_loop_frame YNAB_FETCH_RETRIES env auth (PyList []) initial_world)
    as [Hcols Hupd].
  fold (get_ynab_transactions env auth) in Hcols, Hupd.
  assert (Hkept : forall d, d ∈ ds -> approved_is_false d = false ->
                            exists st, format_columns YNAB_COLUMNS (PyDict d, []) = Ok st).
  { intros d Hd E. rewrite Hperm in Hd.
    apply elem_of_cons in Hd as [-> | Hd]; [by apply well_formed_formats |].
    apply elem_of_cons in Hd as [-> | Hd]; [by apply well_formed_formats |].
    apply list_elem_of_singleton in Hd as ->.
    unfold approved_is_false in E. by rewrite Hu in E. }
  destruct (format_rows_filter ds) as (ts & cs & Hrows & HF).
  { apply Forall_forall. exact Hkept. }
  assert (Hlen : length cs = 2%nat).
  { apply Forall2_length in HF. rewrite <- HF, Hperm.
    rewrite filter_cons_True by (unfold approved_is_false; by rewrite Ha1).
    rewrite filter_cons_True by (unfold approved_is_false; by rewrite Ha2).
    rewrite filter_cons_False by (unfold approved_is_false; by rewrite Hu).
    done. }
  set (w1 := (get_ynab_transactions env auth initial_world).2) in *.
  exists (worksheet_update "Budget 2021" "YNAB-Transactions" "A:Z"
            (HeaderRef :: (Cells <$> cs)) (stamped (ctime env) w1)).2,
         (GSHEETS_COLUMNS_init ++ [time_updated (ctime env)])%list, cs.
  split; [| split; [| split; [| split]]]; try done.
  - unfold main, bind, lift.
    rewrite (AuthData_init_ok _ _ _ _ Hg Hy). fold auth.
    rewrite (surjective_pairing (get_ynab_transactions env auth initial_world)).
    rewrite Hfetch. fold w1.
    rewrite format_ynab_transactions_list, Hrows. cbn [rbind fst snd].
    by rewrite (post_gsheets_transactions_ok env auth _ _ _ Hk Hs Hws).
  - cbn [worksheet_update snd sheet_updates].
    unfold stamped at 1. cbn [append_to_columns snd sheet_updates].
    rewrite Hupd. cbn [initial_world sheet_updates app].
    do 2 f_equal.
    unfold table_cells. cbn [fmap list_fmap row_cells].
    unfold stamped at 1. cbn [append_to_columns snd GSHEETS_COLUMNS].
    rewrite Hcols. cbn [initial_world GSHEETS_COLUMNS].
    f_equal. clear. induction cs as [| c cs IH]; [done |].
    cbn [fmap list_fmap row_cells]. by f_equal.
  - cbn [length]. by rewrite Hlen.
Qed.

(** ** Further properties of the components *)

(** *** Failing before anything is done *)

Lemma AuthData_init_missing (files : gmap string node)
    (gsheet_path ynab_path : string) :
  files !! gsheet_path = None \/ files !! ynab_path = None ->
  AuthData_init files gsheet_path ynab_path = Raise FileNotFoundError.
Proof.
  intros H. unfold AuthData_init, path_exists.
  destruct (files !! gsheet_path) as [ng |] eqn:Eg.
  - destruct H as [H | H]; [discriminate |].
    rewrite bool_decide_true by eauto. cbn [negb].
    rewrite H, bool_decide_false by (by intros [? [=]]). done.
  - rewrite bool_decide_false by (by intros [? [=]]). done.
Qed.

(** X1.  When one of the two credential paths does not exist, [main]
    raises [FileNotFoundError] and has done nothing: no request is sent,
    nothing is logged, the header list is untouched and nothing is written
    to the spreadsheet. *)
Theorem main_missing_file_does_nothing
    (env : environment) (gsheet_path ynab_path : string) (w : world) :
  fs env !! gsheet_path = None \/ fs env !! ynab_path = None ->
  main env gsheet_path ynab_path w = (Raise FileNotFoundError, w).
Proof.
  intros H. unfold main, bind, lift.
  by rewrite (AuthData_init_missing _ _ _ H).
Qed.

Lemma fetch_attempt_missing_key (env : environment) (g : string)
    (d : gmap string pyval) (w : world) :
  d !! "YNAB_BUDGET" = None \/ d !! "YNAB_TOKEN" = None ->
  fetch_attempt env {| gsheet_file := g; ynab_file_dict := PyDict d |} w
  = (Raise KeyError, w).
Proof.
  intros H. unfold fetch_attempt, bind, lift.
  rewrite get_ynab_budget_dict, get_ynab_token_dict.
  destruct (d !! "YNAB_BUDGET") as [budget |]; [| done].
  destruct H as [H | H]; [discriminate |]. by rewrite H.
Qed.

(** X2.  The loader does not check the keys: a credentials object without
    [YNAB_BUDGET] or without [YNAB_TOKEN] is loaded, and [main] raises
    [KeyError] from the first attempt of the fetcher, before any request
    is sent and with nothing else done. *)
Theorem main_missing_key_sends_nothing
    (env : environment) (gsheet_path ynab_path : string)
    (d : gmap string pyval) (w : world) :
  is_Some (fs env !! gsheet_path) ->
  fs env !! ynab_path = Some (File (Some (PyDict d))) ->
  d !! "YNAB_BUDGET" = None \/ d !! "YNAB_TOKEN" = None ->
  AuthData_init (fs env) gsheet_path ynab_path
  = Ok {| gsheet_file := gsheet_path; ynab_file_dict := PyDict d |}
  /\ main env gsheet_path ynab_path w = (Raise KeyError, w).
Proof.
  intros Hg Hy Hd.
  pose proof (AuthData_init_ok _ _ _ _ Hg Hy) as Hinit.
  split; [done |].
  unfold main, bind, lift. rewrite Hinit.
  unfold get_ynab_transactions, YNAB_FETCH_RETRIES. cbn [fetch_loop].
  unfold bind. by rewrite (fetch_attempt_missing_key _ _ _ _ Hd).
Qed.

(** X3.  When the credentials file holds JSON that is not an object, no
    accessor ever returns a value: the token accessor and the budget
    accessor each raise [KeyError] or [TypeError]. *)
Theorem accessors_need_an_object (auth : AuthData) :
  is_dict (ynab_file_dict auth) = false ->
  (get_ynab_token auth = Raise KeyError
   \/ get_ynab_token auth = Raise TypeError)
  /\ (get_ynab_budget auth = Raise KeyError
      \/ get_ynab_budget auth = Raise TypeError).
Proof.
  destruct auth as [g v]. cbn [ynab_file_dict].
  unfold get_ynab_token, get_ynab_budget. cbn [ynab_file_dict].
  intros Hv. destruct v as [| b | z | f | s | l | d]; try discriminate;
    cbn [py_contains rbind]; try (split; by right).
  - split.
    + destruct (bool_decide _); cbn; eauto.
    + destruct (bool_decide _); cbn; eauto.
  - split.
    + destruct (existsb _ l); cbn; eauto.
    + destruct (existsb _ l); cbn; eauto.
Qed.

(** *** The retry loop *)

Lemma fetch_attempt_answered (env : environment) (auth : AuthData) (w : world)
    (budget token : pyval) (r : response) (t : pyval) :
  get_ynab_budget auth = Ok budget ->
  get_ynab_token auth = Ok token ->
  http env (length (requests_sent w)) (transactions_request budget token)
  = Ok r ->
  transactions_of r = Ok t ->
  fetch_attempt env auth w
  = (Ok t, attempted (transactions_request budget token) (attempt_log r) w).
Proof.
  intros Hb Ht Hr Htr. unfold fetch_attempt, bind, lift, requests_get.
  rewrite Hb, Ht, Hr. unfold attempted, attempt_log.
  pose proof Htr as Hbody. unfold transactions_of in Hbody.
  apply rbind_Ok_inv in Hbody as (body & Hbody & _).
  destruct (negb (status_code r =? 200)).
  - rewrite Hbody. cbn [logging_error log requests_sent GSHEETS_COLUMNS
                        sheet_updates].
    by rewrite Htr.
  - cbn [ret]. rewrite Htr. by rewrite app_nil_r.
Qed.

Lemma fetch_loop_requests (n : nat) (env : environment) (auth : AuthData)
    (txns_list budget token : pyval) (w : world) :
  get_ynab_budget auth = Ok budget ->
  get_ynab_token auth = Ok token ->
  exists k : nat,
    (k <= n)%nat
    /\ requests_sent (fetch_loop n env auth txns_list w).2
       = (requests_sent w
          ++ replicate k (transactions_request budget token))%list
    /\ (forall v, (fetch_loop n env auth txns_list w).1 = Ok v -> k = n).
Proof.
  intros Hb Ht. revert txns_list w.
  induction n as [| n IH]; intros txns_list w.
  - exists 0%nat. cbn. by rewrite app_nil_r.
  - rewrite fetch_loop_step.
    destruct (fetch_attempt_result env auth w _ _ Hb Ht) as [_ Hsent].
    destruct (fetch_attempt env auth w).1 as [t | e].
    + destruct (IH t (fetch_attempt env auth w).2) as (k & Hk & Hreq & Hok).
      exists (S k). split; [lia |]. split.
      * rewrite Hreq, Hsent, <- app_assoc. done.
      * intros v Hv. by rewrite (Hok v Hv).
    + exists 1%nat. cbn [fst snd]. split; [lia |].
      split; [by rewrite Hsent | done].
Qed.

(** X4.  With a token and a budget id at hand the fetcher sends at most
    three requests, all of them the same request (same URL, same bearer
    header, same [since_date]), and exactly three when it returns; it
    leaves the header list and the spreadsheet alone. *)
Theorem fetcher_sends_at_most_three
    (env : environment) (auth : AuthData) (w : world)
    (budget token : pyval) :
  get_ynab_budget auth = Ok budget ->
  get_ynab_token auth = Ok token ->
  exists k : nat,
    (k <= 3)%nat
    /\ requests_sent (get_ynab_transactions env auth w).2
       = (requests_sent w
          ++ replicate k (transactions_request budget token))%list
    /\ (forall v, (get_ynab_transactions env auth w).1 = Ok v -> k = 3%nat)
    /\ GSHEETS_COLUMNS (get_ynab_transactions env auth w).2
       = GSHEETS_COLUMNS w
    /\ sheet_updates (get_ynab_transactions env auth w).2 = sheet_updates w.
Proof.
  intros Hb Ht. unfold get_ynab_transactions.
  destruct (fetch_loop_requests YNAB_FETCH_RETRIES env auth (PyList []) _ _ w
              Hb Ht) as (k & Hk & Hreq & Hok).
  destruct (fetch_loop_frame YNAB_FETCH_RETRIES env auth (PyList []) w)
    as [Hc Hu].
  exists k. done.
Qed.

Lemma fetch_loop_stops (i : nat) :
  forall (n : nat) (env : environment) (auth : AuthData)
         (txns_list budget token : pyval) (w : world) (e : exn),
    get_ynab_budget auth = Ok budget ->
    get_ynab_token auth = Ok token ->
    (i < n)%nat ->
    (forall j, (j < i)%nat ->
       exists t, attempt_outcome env (transactions_request budget token)
                   (length (requests_sent w) + j) = Ok t) ->
    attempt_outcome env (transactions_request budget token)
      (length (requests_sent w) + i) = Raise e ->
    (fetch_loop n env auth txns_list w).1 = Raise e
    /\ requests_sent (fetch_loop n env auth txns_list w).2
       = (requests_sent w
          ++ replicate (S i) (transactions_request budget token))%list.
Proof.
  induction i as [| i IH];
    intros n env auth txns_list budget token w e Hb Ht Hi Hbefore Hfail;
    (destruct n as [| n]; [lia |]);
    rewrite fetch_loop_step;
    destruct (fetch_attempt_result env auth w _ _ Hb Ht) as [Hres Hsent];
    fold (attempt_outcome env (transactions_request budget token)
            (length (requests_sent w))) in Hres.
  - rewrite Nat.add_0_r in Hfail. rewrite Hres, Hfail. cbn [fst snd].
    by rewrite Hsent.
  - destruct (Hbefore 0%nat) as [t Hok]; [lia |].
    rewrite Nat.add_0_r in Hok. rewrite Hres, Hok.
    destruct (IH n env auth t budget token (fetch_attempt env auth w).2 e
                Hb Ht) as [Hr Hs].
    + lia.
    + intros j Hj. rewrite Hsent, length_snoc.
      destruct (Hbefore (S j)) as [t' Hj']; [lia |].
      exists t'. rewrite Nat.add_succ_r in Hj'. exact Hj'.
    + rewrite Hsent, length_snoc. rewrite Nat.add_succ_r in Hfail. exact Hfail.
    + split; [done |]. rewrite Hs, Hsent, <- app_assoc. done.
Qed.

(** X5.  The loop does not retry after a failure: when the request of an
    attempt raises, or its body is not JSON or has no [data.transactions],
    the fetcher raises that exception at once, the attempts before it
    having been answered; no further request is sent, so a later attempt
    that would have succeeded is never made. *)
Theorem fetcher_stops_at_first_failure
    (env : environment) (auth : AuthData) (w : world)
    (budget token : pyval) (i : nat) (e : exn) :
  get_ynab_budget auth = Ok budget ->
  get_ynab_token auth = Ok token ->
  (i < 3)%nat ->
  (forall j, (j < i)%nat ->
     exists t, attempt_outcome env (transactions_request budget token)
                 (length (requests_sent w) + j) = Ok t) ->
  attempt_outcome env (transactions_request budget token)
    (length (requests_sent w) + i) = Raise e ->
  (get_ynab_transactions env auth w).1 = Raise e
  /\ requests_sent (get_ynab_transactions env auth w).2
     = (requests_sent w
        ++ replicate (S i) (transactions_request budget token))%list.
Proof.
  intros Hb Ht Hi Hbefore Hfail. unfold get_ynab_transactions.
  by eapply fetch_loop_stops.
Qed.

(** X6.  When the fetcher returns, it has logged one error line for each
    attempt whose status was not 200, in the order of the attempts, and
    nothing else; with three statuses 200 the log is unchanged. *)
Theorem fetcher_logs_each_bad_status
    (env : environment) (auth : AuthData) (w : world)
    (budget token : pyval) (r0 r1 r2 : response) (t0 t1 t2 : pyval) :
  get_ynab_budget auth = Ok budget ->
  get_ynab_token auth = Ok token ->
  http env (length (requests_sent w))
    (transactions_request budget token) = Ok r0 ->
  http env (S (length (requests_sent w)))
    (transactions_request budget token) = Ok r1 ->
  http env (S (S (length (requests_sent w))))
    (transactions_request budget token) = Ok r2 ->
  transactions_of r0 = Ok t0 ->
  transactions_of r1 = Ok t1 ->
  transactions_of r2 = Ok t2 ->
  log (get_ynab_transactions env auth w).2
  = (log w ++ attempt_log r0 ++ attempt_log r1 ++ attempt_log r2)%list
  /\ Forall (fun r => length (attempt_log r)
                      = if status_code r =? 200 then 0%nat else 1%nat)
            [r0; r1; r2].
Proof.
  intros Hb Ht H0 H1 H2 T0 T1 T2. split.
  - unfold get_ynab_transactions, YNAB_FETCH_RETRIES. cbn [fetch_loop].
    unfold bind.
    rewrite (fetch_attempt_answered _ _ _ _ _ _ _ Hb Ht H0 T0).
    rewrite (fetch_attempt_answered env auth (attempted _ _ w) _ _ r1 t1 Hb Ht);
      [| cbn [attempted requests_sent]; by rewrite length_snoc | done].
    rewrite (fetch_attempt_answered env auth (attempted _ _ (attempted _ _ w))
               _ _ r2 t2 Hb Ht);
      [| cbn [attempted requests_sent]; by rewrite !length_snoc | done].
    cbn [ret snd attempted log]. by rewrite <- !app_assoc.
  - assert (Hlen : forall r t, transactions_of r = Ok t ->
                     length (attempt_log r)
                     = if status_code r =? 200 then 0%nat else 1%nat).
    { intros r t Htr. unfold attempt_log.
      unfold transactions_of in Htr.
      apply rbind_Ok_inv in Htr as (body & -> & _).
      by destruct (status_code r =? 200). }
    repeat constructor; eauto.
Qed.

(** *** The formatter on lists it cannot format *)

Lemma format_rows_app_gen (l1 l2 : list pyval) :
  format_rows (l1 ++ l2)
  = (try r1 <- format_rows l1;
     try r2 <- format_rows l2;
     Ok (r1.1 ++ r2.1, r1.2 ++ r2.2)%list).
Proof.
  induction l1 as [| t l1 IH].
  - cbn [app format_rows rbind fst snd].
    by destruct (format_rows l2) as [[ts rows] |].
  - cbn [app format_rows]. rewrite IH.
    destruct (format_transaction t) as [[t' o] |]; [| done].
    destruct (format_rows l1) as [[ts1 rows1] |]; [| done].
    destruct (format_rows l2) as [[ts2 rows2] |]; [| done].
    cbn [rbind fst snd]. by destruct o.
Qed.

Lemma format_rows_fails_at (pre post pre' : list pyval) (rows : list row)
    (t : pyval) (e : exn) :
  format_rows pre = Ok (pre', rows) ->
  format_transaction t = Raise e ->
  format_rows (pre ++ t :: post) = Raise e.
Proof.
  intros Hpre Ht. rewrite format_rows_app_gen, Hpre.
  cbn [rbind format_rows]. by rewrite Ht.
Qed.

Lemma format_column_missing (column : string) (d : gmap string pyval)
    (acc : list string) :
  d !! column = None ->
  format_column column (PyDict d, acc) = Raise KeyError.
Proof.
  intros H. unfold format_column, py_getitem.
  destruct (String.eqb column "amount"); cbn [rbind]; by rewrite H.
Qed.

Lemma format_columns_missing (d : gmap string pyval) (acc : list string)
    (column : string) :
  column ∈ YNAB_COLUMNS ->
  d !! column = None ->
  format_columns YNAB_COLUMNS (PyDict d, acc) = Raise KeyError.
Proof.
  intros Hin Hnone. unfold YNAB_COLUMNS in *. cbn [format_columns].
  destruct (d !! "date") as [vd |] eqn:Hd;
    [plain_column Hd | by rewrite format_column_missing].
  destruct (d !! "account_name") as [va |] eqn:Ha;
    [plain_column Ha | by rewrite format_column_missing].
  destruct (d !! "payee_name") as [vp |] eqn:Hp;
    [plain_column Hp | by rewrite format_column_missing].
  destruct (d !! "memo") as [vm |] eqn:Hm;
    [plain_column Hm | by rewrite format_column_missing].
  destruct (d !! "category_name") as [vc |] eqn:Hc;
    [plain_column Hc | by rewrite format_column_missing].
  destruct (d !! "amount") as [val |] eqn:Hv;
    [| by rewrite format_column_missing].
  repeat (apply elem_of_cons in Hin as [-> | Hin]; [congruence |]).
  by apply elem_of_nil in Hin.
Qed.

(** X7.  A transaction the loop does not skip must have all six columns:
    when one of them is missing the formatter raises [KeyError] and
    returns no table, whatever the transactions before it gave; the
    timestamp has already been appended to the header list. *)
Theorem formatter_missing_column
    (now : string) (auth : AuthData) (w : world)
    (pre post pre' : list pyval) (rows : list row)
    (d : gmap string pyval) (column : string) :
  format_rows pre = Ok (pre', rows) ->
  approved_is_false d = false ->
  column ∈ YNAB_COLUMNS ->
  d !! column = None ->
  format_ynab_transactions now auth (PyList (pre ++ PyDict d :: post)) w
  = (Raise KeyError, stamped now w).
Proof.
  intros Hpre Hkept Hin Hnone. rewrite format_ynab_transactions_list.
  erewrite format_rows_fails_at; [done | exact Hpre |].
  unfold format_transaction. rewrite skipped_dict, Hkept. cbn [rbind].
  by rewrite (format_columns_missing _ _ _ Hin Hnone).
Qed.

Lemma format_columns_bad_amount (d : gmap string pyval) (acc : list string)
    (val : pyval) (e : exn) :
  Forall (fun column => is_Some (d !! column)) YNAB_COLUMNS ->
  d !! "amount" = Some val ->
  convert_milliunits_to_dollar_amount val = Raise e ->
  format_columns YNAB_COLUMNS (PyDict d, acc) = Raise e.
Proof.
  intros Hcols Hv He. unfold YNAB_COLUMNS in *.
  apply Forall_cons in Hcols as [[vd Hd] Hcols].
  apply Forall_cons in Hcols as [[va Ha] Hcols].
  apply Forall_cons in Hcols as [[vp Hp] Hcols].
  apply Forall_cons in Hcols as [[vm Hm] Hcols].
  apply Forall_cons in Hcols as [[vc Hc] _].
  cbn [format_columns].
  plain_column Hd. plain_column Ha. plain_column Hp. plain_column Hm.
  plain_column Hc.
  unfold format_column. change (String.eqb "amount" "amount") with true.
  cbv iota. rewrite (py_getitem_dict _ _ _ Hv). cbn [rbind].
  by rewrite He.
Qed.

(** X8.  The amount of a transaction that is not skipped must be a number:
    when its conversion raises ([TypeError] for [None], a string, a list
    or a dictionary, [OverflowError] for an integer beyond the floats) the
    formatter raises the same exception and returns no table. *)
Theorem formatter_bad_amount
    (now : string) (auth : AuthData) (w : world)
    (pre post pre' : list pyval) (rows : list row)
    (d : gmap string pyval) (val : pyval) (e : exn) :
  format_rows pre = Ok (pre', rows) ->
  approved_is_false d = false ->
  Forall (fun column => is_Some (d !! column)) YNAB_COLUMNS ->
  d !! "amount" = Some val ->
  convert_milliunits_to_dollar_amount val = Raise e ->
  format_ynab_transactions now auth (PyList (pre ++ PyDict d :: post)) w
  = (Raise e, stamped now w)
  /\ (is_dict val || is_list val = true \/ val = PyNone
      \/ (exists s, val = PyStr s) -> e = TypeError).
Proof.
  intros Hpre Hkept Hcols Hv He. split.
  - rewrite format_ynab_transactions_list.
    erewrite format_rows_fails_at; [done | exact Hpre |].
    unfold format_transaction. rewrite skipped_dict, Hkept. cbn [rbind].
    by rewrite (format_columns_bad_amount _ _ _ _ Hcols Hv He).
  - intros H. destruct val; cbn in He, H;
      try (by injection He as <-);
      destruct H as [H | [H | [s' H]]]; discriminate.
Qed.

Lemma format_transaction_non_dict (t : pyval) :
  is_dict t = false -> format_transaction t = Raise TypeError.
Proof.
  intros Ht. destruct t as [| b | z | f | s | l | d];
    try discriminate; try done.
  - unfold format_transaction, skipped, py_contains.
    cbn [rbind YNAB_TXNS_APPROVED_ONLY].
    by destruct (bool_decide (is_Some (index 0 "approved" s))).
  - unfold format_transaction, skipped, py_contains.
    cbn [rbind YNAB_TXNS_APPROVED_ONLY].
    by destruct (existsb _ l).
Qed.

(** X9.  Every element of the list must be a dictionary: at the first
    element that is not one (a string, a number, [None], a list) the
    formatter raises [TypeError]. *)
Theorem formatter_non_dict_element
    (now : string) (auth : AuthData) (w : world)
    (pre post pre' : list pyval) (rows : list row) (t : pyval) :
  format_rows pre = Ok (pre', rows) ->
  is_dict t = false ->
  format_ynab_transactions now auth (PyList (pre ++ t :: post)) w
  = (Raise TypeError, stamped now w).
Proof.
  intros Hpre Ht. rewrite format_ynab_transactions_list.
  erewrite format_rows_fails_at; [done | exact Hpre |].
  by apply format_transaction_non_dict.
Qed.

(** X10.  The formatter needs a list: given any other value it raises
    [TypeError], the empty dictionary and the empty string apart, over
    which the loop does not run. *)
Theorem formatter_needs_a_list
    (now : string) (auth : AuthData) (w : world) (raw_txns : pyval) :
  is_list raw_txns = false ->
  raw_txns <> PyDict ∅ ->
  raw_txns <> PyStr EmptyString ->
  format_ynab_transactions now auth raw_txns w
  = (Raise TypeError, stamped now w).
Proof.
  intros Hl Hd Hs.
  assert (Hfirst : forall (k : string) (rest : list pyval),
            format_rows (PyStr k :: rest) = Raise TypeError).
  { intros k rest. cbn [format_rows].
    by rewrite (format_transaction_non_dict (PyStr k)). }
  unfold format_ynab_transactions, bind, lift, stamped.
  cbn [append_to_columns snd].
  destruct raw_txns as [| b | z | f | s | l | d]; try discriminate; try done.
  - destruct s as [| c s]; [done |].
    cbn [py_iter chars]. by rewrite Hfirst.
  - cbn [py_iter]. destruct (map_to_list d) as [| [k v] kvs] eqn:E.
    + apply map_to_list_empty_iff in E. by subst d.
    + cbn [fmap list_fmap fst]. by rewrite Hfirst.
Qed.

(** *** How the formatter composes *)

(** X11.  Transactions are formatted one by one and in order: the table
    of a list [l1 ++ l2] is the header followed by the data rows of [l1]
    and then those of [l2], and the transactions it leaves are those the
    two calls leave. *)
Theorem formatter_concatenates
    (now : string) (auth : AuthData) (w w1 w2 : world)
    (l1 l2 : list pyval) (t1 t2 : list row) (raw1 raw2 : pyval) :
  format_ynab_transactions now auth (PyList l1) w = (Ok (t1, raw1), w1) ->
  format_ynab_transactions now auth (PyList l2) w = (Ok (t2, raw2), w2) ->
  exists (rows1 rows2 : list row) (l1' l2' : list pyval),
    t1 = HeaderRef :: rows1 /\ t2 = HeaderRef :: rows2
    /\ raw1 = PyList l1' /\ raw2 = PyList l2'
    /\ format_ynab_transactions now auth (PyList (l1 ++ l2)) w
       = (Ok (HeaderRef :: rows1 ++ rows2, PyList (l1' ++ l2'))%list,
          stamped now w).
Proof.
  rewrite !format_ynab_transactions_list. intros H1 H2.
  injection H1 as H1 _. injection H2 as H2 _.
  apply rbind_Ok_inv in H1 as ([l1' rows1] & Hr1 & [= <- <-]).
  apply rbind_Ok_inv in H2 as ([l2' rows2] & Hr2 & [= <- <-]).
  exists rows1, rows2, l1', l2'. repeat split.
  by rewrite (format_rows_app _ _ _ _ _ _ Hr1 Hr2).
Qed.

(** X12.  A transaction the loop skips is not looked at any further: it
    needs no column and no amount, and the table is the one the list
    without it gives, exceptions included. *)
Theorem formatter_ignores_skipped
    (now : string) (auth : AuthData) (w : world)
    (pre post : list pyval) (d : gmap string pyval) :
  approved_is_false d = true ->
  rmap fst (format_ynab_transactions now auth
              (PyList (pre ++ PyDict d :: post)) w).1
  = rmap fst (format_ynab_transactions now auth (PyList (pre ++ post)) w).1.
Proof.
  intros Hd. rewrite !format_ynab_transactions_list. cbn [fst].
  rewrite !format_rows_app_gen. cbn [format_rows].
  rewrite (format_transaction_skipped _ Hd). cbn [rbind].
  destruct (format_rows pre) as [[ts1 rows1] |]; [| done].
  destruct (format_rows post) as [[ts2 rows2] |]; done.
Qed.

Lemma float_true_div_thousand (x : spec_float) :
  float_true_div x thousand = Ok (SFdiv prec emax x thousand).
Proof. reflexivity. Qed.

(** X13.  Formatting is not repeatable on the same list: the first call
    leaves a float amount in the transaction, and a second call on the
    list the first one left divides that float by 1000 again, so its row
    shows [amount / 1000 / 1000]. *)
Theorem formatting_twice_divides_twice
    (now1 now2 : string) (auth : AuthData) (w : world)
    (d : gmap string pyval) (vd va vp vm vc : pyval) (a : Z) (x : spec_float) :
  d !! "date" = Some vd ->
  d !! "account_name" = Some va ->
  d !! "payee_name" = Some vp ->
  d !! "memo" = Some vm ->
  d !! "category_name" = Some vc ->
  d !! "amount" = Some (PyInt a) ->
  int_true_div a 1000 = Ok x ->
  approved_is_false d = false ->
  exists (t1 : list row) (raw1 : pyval),
    format_ynab_transactions now1 auth (PyList [PyDict d]) w
    = (Ok (t1, raw1), stamped now1 w)
    /\ format_ynab_transactions now2 auth raw1 (stamped now1 w)
       = (Ok ([HeaderRef;
               Cells [py_str vd; py_str va; py_str vp; py_str vm; py_str vc;
                      float_repr (SFdiv prec emax x thousand)]],
              PyList [PyDict (<["amount" :=
                                  PyFloat (SFdiv prec emax x thousand)]> d)]),
          stamped now2 (stamped now1 w)).
Proof.
  intros Hd Ha Hp Hm Hc Hv Hx Hkept.
  set (d1 := <["amount" := PyFloat x]> d).
  assert (H1 : format_columns YNAB_COLUMNS (PyDict d, [])
               = Ok (PyDict d1,
                     [py_str vd; py_str va; py_str vp; py_str vm; py_str vc;
                      float_repr x])).
  { by apply (format_columns_dict d [] vd va vp vm vc (PyInt a) x). }
  assert (Hkept1 : approved_is_false d1 = false).
  { unfold approved_is_false, d1 in *. by rewrite lookup_insert_ne. }
  assert (H2 : format_columns YNAB_COLUMNS (PyDict d1, [])
               = Ok (PyDict (<["amount" :=
                                 PyFloat (SFdiv prec emax x thousand)]> d1),
                     [py_str vd; py_str va; py_str vp; py_str vm; py_str vc;
                      float_repr (SFdiv prec emax x thousand)])).
  { apply (format_columns_dict d1 [] vd va vp vm vc (PyFloat x));
      unfold d1; rewrite ?lookup_insert_eq, ?lookup_insert_ne by done;
      try done. }
  unfold d1 in H2 at 2. rewrite insert_insert_eq in H2.
  exists [HeaderRef;
          Cells [py_str vd; py_str va; py_str vp; py_str vm; py_str vc;
                 float_repr x]],
         (PyList [PyDict d1]).
  split.
  - rewrite format_ynab_transactions_list. cbn [format_rows].
    rewrite (format_transaction_kept _ _ Hkept H1). done.
  - rewrite format_ynab_transactions_list. cbn [format_rows].
    rewrite (format_transaction_kept _ _ Hkept1 H2). done.
Qed.

(** *** The sign of a converted amount *)

Lemma round_ratio_opp (n d : positive) :
  round_ratio true n d = SFopp (round_ratio false n d).
Proof.
  unfold round_ratio, SFdiv. cbn [xorb].
  destruct (SFdiv_core_binary prec emax (Z.pos n) 0 (Z.pos d) 0)
    as [[mz ez] lz].
  unfold binary_round_aux.
  destruct (shr_fexp prec emax mz ez lz) as [mrs1 e1].
  destruct (shr_fexp prec emax _ e1 loc_Exact) as [mrs2 e2].
  destruct (shr_m mrs2); [done | | done].
  by destruct (e2 <=? emax - prec).
Qed.

Lemma round_ratio_positive (n d : positive) :
  match round_ratio false n d with
  | S754_zero s | S754_infinity s | S754_finite s _ _ => s = false
  | S754_nan => True
  end.
Proof.
  unfold round_ratio, SFdiv. cbn [xorb].
  destruct (SFdiv_core_binary prec emax (Z.pos n) 0 (Z.pos d) 0)
    as [[mz ez] lz].
  unfold binary_round_aux.
  destruct (shr_fexp prec emax mz ez lz) as [mrs1 e1].
  destruct (shr_fexp prec emax _ e1 loc_Exact) as [mrs2 e2].
  destruct (shr_m mrs2); [done | | done].
  by destruct (e2 <=? emax - prec).
Qed.

(** X14.  The conversion is odd: for a positive integer [v] that
    converts, [-v] converts to the opposite float, and its cell is the
    cell of [v] with a minus sign in front. *)
Theorem conversion_is_odd (v : Z) (x : spec_float) :
  0 < v ->
  convert_milliunits_to_dollar_amount (PyInt v) = Ok x ->
  convert_milliunits_to_dollar_amount (PyInt (- v)) = Ok (SFopp x)
  /\ float_repr (SFopp x) = "-" ++ float_repr x.
Proof.
  intros Hv. destruct v as [| n | n]; [lia | | lia].
  change (- Z.pos n) with (Z.neg n).
  cbn [convert_milliunits_to_dollar_amount int_true_div].
  rewrite round_ratio_opp.
  pose proof (round_ratio_positive n 1000) as Hsign.
  destruct (round_ratio false n 1000) as [s | s | | s m e];
    cbn [is_finite SFopp]; try discriminate.
  - intros [= <-]. subst s. done.
  - intros [= <-]. subst s. cbn [SFopp negb float_repr].
    by destruct (float_digits m e).
Qed.

(** *** What [main] does to the outside *)




End Program.

(** ** The properties on the sample data *)

Lemma format_row_six_cells_witness :
  format_ynab_transactions sample_repr sample_now sample_auth
    (PyList [PyDict example_transaction]) initial_world
  = (Ok ([HeaderRef;
          Cells ["2024-01-01"; "Checking"; "Store"; "m"; "Food"; "-12.34"]],
         PyList [PyDict (<["amount" := PyFloat minus_12_34]> example_transaction)]),
     stamped sample_now initial_world).
Proof.
  refine (proj1 (format_row_six_cells sample_repr sample_now sample_auth
                   initial_world [] [] [] [] [] [] example_transaction
                   (PyStr "2024-01-01") (PyStr "Checking") (PyStr "Store")
                   (PyStr "m") (PyStr "Food") (-12340) minus_12_34
                   _ _ _ _ _ _ _ _ _ _));
    vm_compute; reflexivity.
Defined.

Lemma unapproved_transactions_excluded_witness :
  exists (ts : list pyval) (cs : list (list string)),
    format_ynab_transactions sample_repr sample_now sample_auth
      (PyList (PyDict <$> fetched_transactions)) initial_world
    = (Ok (HeaderRef :: (Cells <$> cs), PyList ts),
       stamped sample_now initial_world)
    /\ Forall2 (fun d cells =>
                  exists t', format_columns sample_repr YNAB_COLUMNS
                               (PyDict d, []) = Ok (t', cells))
               (filter (fun d => approved_is_false d = false)
                       fetched_transactions) cs.
Proof.
  refine (proj1 (unapproved_transactions_excluded sample_repr sample_now
                   sample_auth initial_world fetched_transactions _)).
  repeat constructor; intros _; eexists; vm_compute; reflexivity.
Defined.

Lemma header_one_more_than_rows_witness :
  exists (header : list string) (rows : list (list string)),
    table_cells (stamped sample_now initial_world)
      [HeaderRef;
       Cells ["2024-01-01"; "Checking"; "Store"; "m"; "Food"; "-12.34"]]
    = header :: rows
    /\ header = (GSHEETS_COLUMNS_init ++ [time_updated sample_now])%list
    /\ length header = 7%nat
    /\ Forall (fun r => length r = 6%nat /\ length header = S (length r)) rows.
Proof.
  refine (header_one_more_than_rows sample_repr sample_now sample_auth
            (PyList [PyDict example_transaction])
            (PyList [PyDict (<["amount" := PyFloat minus_12_34]>
                               example_transaction)])
            initial_world (stamped sample_now initial_world) _ _ _);
    vm_compute; reflexivity.
Defined.

Lemma formatter_overwrites_amount_witness :
  exists after : list pyval,
    PyList [PyDict (<["amount" := PyFloat minus_12_34]> example_transaction);
            PyDict unapproved_transaction]
    = PyList after
    /\ Forall2
         (fun old new =>
            exists d d' : gmap string pyval,
              old = PyDict d /\ new = PyDict d'
              /\ (forall key, key <> "amount" -> d' !! key = d !! key)
              /\ if approved_is_false d then d' = d
                 else exists val x,
                     d !! "amount" = Some val
                     /\ convert_milliunits_to_dollar_amount val = Ok x
                     /\ d' = <["amount" := PyFloat x]> d
                     /\ d' !! "amount" = Some (PyFloat x)
                     /\ (forall a, val = PyInt a ->
                                   int_true_div a 1000 = Ok x /\ d' <> d))
         [PyDict example_transaction; PyDict unapproved_transaction] after.
Proof.
  refine (formatter_overwrites_amount sample_repr sample_now sample_auth
            [PyDict example_transaction; PyDict unapproved_transaction]
            _ initial_world (stamped sample_now initial_world)
            [HeaderRef;
             Cells ["2024-01-01"; "Checking"; "Store"; "m"; "Food"; "-12.34"]]
            _).
  vm_compute; reflexivity.
Defined.

Lemma loader_returns_json_values_witness :
  exists auth : AuthData,
    AuthData_init sample_files "key.json" "ynab.json" = Ok auth
    /\ get_ynab_token auth = Ok (PyStr "secret-token")
    /\ get_ynab_budget auth = Ok (PyStr "budget-1")
    /\ get_gsheet_file auth = "key.json".
Proof.
  refine (loader_returns_json_values sample_files "key.json" "ynab.json"
            sample_credentials (PyStr "secret-token") (PyStr "budget-1")
            _ _ _ _);
    [eexists | ..]; vm_compute; reflexivity.
Defined.

Lemma fetcher_returns_last_attempt_witness :
  (get_ynab_transactions sample_repr sample_env sample_auth initial_world).1
  = Ok (PyList (PyDict <$> fetched_transactions)).
Proof.
  apply (proj2 (fetcher_returns_last_attempt sample_repr sample_env
                  sample_auth initial_world
                  (PyList (PyDict <$> fetched_transactions)))).
  exists (PyStr "budget-1"), (PyStr "secret-token"),
         (response_with 500 [PyDict unmarked_transaction]),
         (response_with 429 []),
         (response_with 200 (PyDict <$> fetched_transactions)),
         (PyList [PyDict unmarked_transaction]), (PyList []).
  repeat split; vm_compute; reflexivity.
Defined.

Lemma end_to_end_three_rows_witness :
  exists (w' : world) (header : list string) (rows : list (list string)),
    main sample_repr sample_env "key.json" "ynab.json" initial_world
    = (Ok tt, w')
    /\ sheet_updates w'
       = [{| spreadsheet := "Budget 2021";
             worksheet := "YNAB-Transactions";
             sheet_range := "A:Z";
             values := header :: rows |}]
    /\ length (header :: rows) = 3%nat
    /\ length rows = 2%nat
    /\ header = (GSHEETS_COLUMNS_init ++ [time_updated (ctime sample_env)])%list.
Proof.
  refine (end_to_end_three_rows sample_repr sample_env "key.json" "ynab.json"
            sample_credentials (PyStr "secret-token") (PyStr "budget-1")
            (response_with 500 [PyDict unmarked_transaction])
            (response_with 429 [])
            (response_with 200 (PyDict <$> fetched_transactions))
            (PyList [PyDict unmarked_transaction]) (PyList [])
            fetched_transactions
            example_transaction second_transaction unapproved_transaction
            ["Summary"; "YNAB-Transactions"]
            _ _ _ _ _ _ _ _ _ _ _ _ _ _ _ _ _ _ _).
  all: lazymatch goal with
       | |- well_formed_transaction _ =>
           split;
           [ repeat (apply Forall_cons; split; [eexists; reflexivity |]);
             constructor
           | eexists; split; [reflexivity | lia] ]
       | |- _ ≡ₚ _ => apply perm_skip, perm_swap
       | |- is_Some _ => eexists; reflexivity
       | |- _ ∈ _ => apply list_elem_of_In; vm_compute; auto
       | |- _ => vm_compute; reflexivity
       end.
Defined.

(** ** The further properties on the sample data *)

Lemma main_missing_file_does_nothing_witness :
  main sample_repr sample_env "missing.json" "ynab.json" initial_world
  = (Raise FileNotFoundError, initial_world).
Proof.
  apply (main_missing_file_does_nothing sample_repr sample_env
           "missing.json" "ynab.json" initial_world).
  left. vm_compute. reflexivity.
Defined.

Lemma main_missing_key_sends_nothing_witness :
  AuthData_init (fs token_only_env) "key.json" "ynab.json"
  = Ok {| gsheet_file := "key.json";
          ynab_file_dict := PyDict token_only_credentials |}
  /\ main sample_repr token_only_env "key.json" "ynab.json" initial_world
     = (Raise KeyError, initial_world).
Proof.
  apply (main_missing_key_sends_nothing sample_repr token_only_env
           "key.json" "ynab.json" token_only_credentials initial_world).
  - eexists. vm_compute. reflexivity.
  - vm_compute. reflexivity.
  - left. vm_compute. reflexivity.
Defined.

Lemma accessors_need_an_object_witness :
  (get_ynab_token array_auth = Raise KeyError
   \/ get_ynab_token array_auth = Raise TypeError)
  /\ (get_ynab_budget array_auth = Raise KeyError
      \/ get_ynab_budget array_auth = Raise TypeError).
Proof.
  apply (accessors_need_an_object array_auth). reflexivity.
Defined.

Lemma fetcher_sends_at_most_three_witness :
  exists k : nat,
    (k <= 3)%nat
    /\ requests_sent
         (get_ynab_transactions sample_repr sample_env sample_auth
            initial_world).2
       = (requests_sent initial_world
          ++ replicate k
               (transactions_request sample_repr (PyStr "budget-1")
                  (PyStr "secret-token")))%list
    /\ (forall v,
          (get_ynab_transactions sample_repr sample_env sample_auth
             initial_world).1 = Ok v -> k = 3%nat)
    /\ GSHEETS_COLUMNS
         (get_ynab_transactions sample_repr sample_env sample_auth
            initial_world).2
       = GSHEETS_COLUMNS initial_world
    /\ sheet_updates
         (get_ynab_transactions sample_repr sample_env sample_auth
            initial_world).2
       = sheet_updates initial_world.
Proof.
  apply (fetcher_sends_at_most_three sample_repr sample_env sample_auth
           initial_world (PyStr "budget-1") (PyStr "secret-token"));
    vm_compute; reflexivity.
Defined.

Lemma fetcher_stops_at_first_failure_witness :
  (get_ynab_transactions sample_repr flaky_env sample_auth initial_world).1
  = Raise JSONDecodeError
  /\ requests_sent
       (get_ynab_transactions sample_repr flaky_env sample_auth
          initial_world).2
     = (requests_sent initial_world
        ++ replicate 2
             (transactions_request sample_repr (PyStr "budget-1")
                (PyStr "secret-token")))%list.
Proof.
  apply (fetcher_stops_at_first_failure sample_repr flaky_env sample_auth
           initial_world (PyStr "budget-1") (PyStr "secret-token") 1
           JSONDecodeError).
  - vm_compute. reflexivity.
  - vm_compute. reflexivity.
  - lia.
  - intros j Hj. assert (j = 0%nat) as -> by lia.
    eexists. vm_compute. reflexivity.
  - vm_compute. reflexivity.
Defined.

Lemma fetcher_logs_each_bad_status_witness :
  log (get_ynab_transactions sample_repr sample_env sample_auth
         initial_world).2
  = (log initial_world
     ++ attempt_log sample_repr (response_with 500 [PyDict unmarked_transaction])
     ++ attempt_log sample_repr (response_with 429 [])
     ++ attempt_log sample_repr
          (response_with 200 (PyDict <$> fetched_transactions)))%list
  /\ Forall (fun r => length (attempt_log sample_repr r)
                      = if status_code r =? 200 then 0%nat else 1%nat)
            [response_with 500 [PyDict unmarked_transaction];
             response_with 429 [];
             response_with 200 (PyDict <$> fetched_transactions)].
Proof.
  apply (fetcher_logs_each_bad_status sample_repr sample_env sample_auth
           initial_world (PyStr "budget-1") (PyStr "secret-token")
           (response_with 500 [PyDict unmarked_transaction])
           (response_with 429 [])
           (response_with 200 (PyDict <$> fetched_transactions))
           (PyList [PyDict unmarked_transaction]) (PyList [])
           (PyList (PyDict <$> fetched_transactions)));
    vm_compute; reflexivity.
Defined.

Lemma formatter_missing_column_witness :
  format_ynab_transactions sample_repr sample_now sample_auth
    (PyList ([PyDict example_transaction]
             ++ PyDict no_memo_transaction :: [])) initial_world
  = (Raise KeyError, stamped sample_now initial_world).
Proof.
  apply (formatter_missing_column sample_repr sample_now sample_auth
           initial_world [PyDict example_transaction] []
           [PyDict example_formatted] [Cells example_row]
           no_memo_transaction "memo").
  - vm_compute. reflexivity.
  - vm_compute. reflexivity.
  - apply list_elem_of_In. vm_compute. auto 10.
  - vm_compute. reflexivity.
Defined.

Lemma formatter_bad_amount_witness :
  format_ynab_transactions sample_repr sample_now sample_auth
    (PyList ([PyDict example_transaction]
             ++ PyDict text_amount_transaction :: [])) initial_world
  = (Raise TypeError, stamped sample_now initial_world)
  /\ (is_dict (PyStr "12.50") || is_list (PyStr "12.50") = true
      \/ PyStr "12.50" = PyNone
      \/ (exists s, PyStr "12.50" = PyStr s) -> TypeError = TypeError).
Proof.
  apply (formatter_bad_amount sample_repr sample_now sample_auth
           initial_world [PyDict example_transaction] []
           [PyDict example_formatted] [Cells example_row]
           text_amount_transaction (PyStr "12.50") TypeError).
  - vm_compute. reflexivity.
  - vm_compute. reflexivity.
  - repeat (apply Forall_cons; split; [eexists; reflexivity |]). constructor.
  - vm_compute. reflexivity.
  - vm_compute. reflexivity.
Defined.

Lemma formatter_non_dict_element_witness :
  format_ynab_transactions sample_repr sample_now sample_auth
    (PyList ([PyDict example_transaction] ++ PyNone :: [])) initial_world
  = (Raise TypeError, stamped sample_now initial_world).
Proof.
  apply (formatter_non_dict_element sample_repr sample_now sample_auth
           initial_world [PyDict example_transaction] []
           [PyDict example_formatted] [Cells example_row] PyNone);
    vm_compute; reflexivity.
Defined.

Lemma formatter_needs_a_list_witness :
  format_ynab_transactions sample_repr sample_now sample_auth PyNone
    initial_world
  = (Raise TypeError, stamped sample_now initial_world).
Proof.
  apply (formatter_needs_a_list sample_repr sample_now sample_auth
           initial_world PyNone).
  - reflexivity.
  - discriminate.
  - discriminate.
Defined.

Lemma formatter_concatenates_witness :
  exists (rows1 rows2 : list row) (l1' l2' : list pyval),
    [HeaderRef; Cells example_row] = HeaderRef :: rows1
    /\ [HeaderRef; Cells second_row] = HeaderRef :: rows2
    /\ PyList [PyDict example_formatted] = PyList l1'
    /\ PyList [PyDict second_formatted] = PyList l2'
    /\ format_ynab_transactions sample_repr sample_now sample_auth
         (PyList ([PyDict example_transaction] ++ [PyDict second_transaction]))
         initial_world
       = (Ok (HeaderRef :: rows1 ++ rows2, PyList (l1' ++ l2'))%list,
          stamped sample_now initial_world).
Proof.
  apply (formatter_concatenates sample_repr sample_now sample_auth
           initial_world (stamped sample_now initial_world)
           (stamped sample_now initial_world)
           [PyDict example_transaction] [PyDict second_transaction]);
    vm_compute; reflexivity.
Defined.

Lemma formatter_ignores_skipped_witness :
  rmap fst (format_ynab_transactions sample_repr sample_now sample_auth
              (PyList ([PyDict example_transaction]
                       ++ PyDict bare_unapproved_transaction :: []))
              initial_world).1
  = rmap fst (format_ynab_transactions sample_repr sample_now sample_auth
                (PyList ([PyDict example_transaction] ++ []))
                initial_world).1.
Proof.
  apply (formatter_ignores_skipped sample_repr sample_now sample_auth
           initial_world [PyDict example_transaction] []
           bare_unapproved_transaction).
  vm_compute. reflexivity.
Defined.

Lemma formatting_twice_divides_twice_witness :
  exists (t1 : list row) (raw1 : pyval),
    format_ynab_transactions sample_repr sample_now sample_auth
      (PyList [PyDict example_transaction]) initial_world
    = (Ok (t1, raw1), stamped sample_now initial_world)
    /\ format_ynab_transactions sample_repr sample_now sample_auth raw1
         (stamped sample_now initial_world)
       = (Ok ([HeaderRef;
               Cells ["2024-01-01"; "Checking"; "Store"; "m"; "Food";
                      float_repr (SFdiv prec emax minus_12_34 thousand)]],
              PyList [PyDict (<["amount" :=
                                  PyFloat (SFdiv prec emax minus_12_34
                                             thousand)]>
                                example_transaction)]),
          stamped sample_now (stamped sample_now initial_world)).
Proof.
  apply (formatting_twice_divides_twice sample_repr sample_now sample_now
           sample_auth initial_world example_transaction
           (PyStr "2024-01-01") (PyStr "Checking") (PyStr "Store")
           (PyStr "m") (PyStr "Food") (-12340) minus_12_34);
    vm_compute; reflexivity.
Defined.

Lemma conversion_is_odd_witness :
  convert_milliunits_to_dollar_amount (PyInt (- 12340))
  = Ok (SFopp (SFopp minus_12_34))
  /\ float_repr (SFopp (SFopp minus_12_34))
     = "-" ++ float_repr (SFopp minus_12_34).
Proof.
  apply (conversion_is_odd 12340 (SFopp minus_12_34)).
  - lia.
  - vm_compute. reflexivity.
Defined.
